(** * store_fastapi: reviews, rating aggregation and payment initiation

    A shallow embedding of [app/models/reviews.py], [app/routers/reviews.py]
    and [app/payments.py], followed by the properties the specification
    states about them.

    Conventions of the embedding:
    - a Python [str] is the list of its Unicode code points ([str]); the
      literals of the source are ASCII and written with [u "..."];
    - a Python [int] is a [Z];
    - a table is the list of its rows; the primary key is checked when a
      row is inserted;
    - the average computed by the database and the [rating] column are
      exact rationals ([Q]); the precision of the storage type is not
      modelled;
    - a request handler is a computation over its [AsyncSession]: it may
      raise an exception, and what it leaves in the database is what it
      has committed. *)

From Stdlib Require Import ZArith NArith QArith String Ascii List Lia.
From Stdlib Require Import DecimalString DecimalN.
From stdpp Require Import base option list gmap strings.

Set Warnings "-register-all".
Open Scope Z_scope.

(** ** Python values *)

Definition codepoint := N.
Definition str := list codepoint.

(** An ASCII literal of the source as a Python [str]. *)
Definition u (s : string) : str := map N_of_ascii (list_ascii_of_string s).

(** [dict[str, Any]]: the JSON-like values the handlers build. *)
Inductive Any :=
| Str (s : str)
| Int (z : Z)
| Bool (b : bool)
| NoneVal
| List (l : list Any)
| Dict (d : gmap string Any).

(** A dict literal [{"k1": v1, ...}]. *)
Definition dict (items : list (string * Any)) : Any := Dict (list_to_map items).

(** [d["k"]] on a value that is expected to be a dict. *)
Definition getitem (k : string) (v : Any) : option Any :=
  match v with
  | Dict d => d !! k
  | _ => None
  end.

Inductive Exception :=
| HTTPException (status_code : Z) (detail : string)
| RuntimeError (msg : string)
| AttributeError
| IntegrityError
| ApiError (msg : string).

Inductive Result (A : Type) :=
| Return (a : A)
| Raise (e : Exception).
Arguments Return {A} a.
Arguments Raise {A} e.

(** ** Computations with state and exceptions *)

Definition M (S A : Type) : Type := S -> Result A * S.

#[global] Instance M_ret S : MRet (M S) := fun A a s => (Return a, s).

#[global] Instance M_bind S : MBind (M S) := fun A B f m s =>
  match m s with
  | (Return a, s') => f a s'
  | (Raise e, s') => (Raise e, s')
  end.

Definition raise {S A} (e : Exception) : M S A := fun s => (Raise e, s).
Definition get_state {S} : M S S := fun s => (Return s, s).
Definition put_state {S} (s : S) : M S unit := fun _ => (Return tt, s).

(** ** app/models *)

Module ReviewModel.
(** [class Review(Base)] of app/models/reviews.py. *)
Record Review := mk {
  id : Z;
  user_id : Z;
  product_id : Z;
  comment : option str;
  comment_date : Z;
  grade : Z;
  is_active : bool
}.

Definition set_is_active (b : bool) (r : Review) : Review :=
  mk (id r) (user_id r) (product_id r) (comment r) (comment_date r) (grade r) b.
End ReviewModel.

Module ProductModel.
(** Modelled from the spec: app/models/products.py is not part of the
    sources at hand.  The router reads [id] and [is_active] and writes
    [rating]; the other columns are kept together in [columns]. *)
Record Product := mk {
  id : Z;
  is_active : bool;
  rating : Q;
  columns : list (string * Any)
}.

Definition set_rating (q : Q) (p : Product) : Product :=
  mk (id p) (is_active p) q (columns p).
End ProductModel.

Module UserModel.
(** Modelled from the spec: app/models/users.py is not part of the
    sources at hand.  The router reads [id] and [role]. *)
Record User := mk {
  id : Z;
  role : str
}.
End UserModel.

Module schemas.
(** Modelled from the spec: [ReviewCreate] of app/schemas.py is not part
    of the sources at hand.  Its dump supplies the columns of a review
    that neither the caller's identity nor a column default supplies. *)
Record ReviewCreate := mk {
  product_id : Z;
  comment : option str;
  grade : Z
}.
End schemas.

(** ** The database and the session of a request *)

Record Database := mkDatabase {
  reviews : list ReviewModel.Review;
  products : list ProductModel.Product;
  reviews_id_seq : Z   (* next value of the sequence behind [Review.id] *)
}.

(** The [ReviewModel] object built from the dump of the request body and
    [user_id=current_user.id], before it is flushed: [id], [comment_date]
    and [is_active] are not set yet. *)
Record TransientReview := mkTransient {
  t_user_id : Z;
  t_product_id : Z;
  t_comment : option str;
  t_grade : Z
}.

(** What the unit of work holds until the next flush. *)
Inductive Write :=
| INSERT_review (t : TransientReview)
| UPDATE_review_is_active (pk : Z) (b : bool)
| UPDATE_product_rating (pk : Z) (q : Q).

Record AsyncSession := mkSession {
  persisted : Database;       (* what other transactions see *)
  working : Database;         (* what this transaction sees *)
  pending : list Write;       (* not flushed yet *)
  inserted : option Z;        (* identity given to the added object *)
  now : Z                     (* [datetime.now()] during this request *)
}.

Definition begin (clock : Z) (db : Database) : AsyncSession :=
  mkSession db db [] None clock.

Definition set_working (w : Database) (s : AsyncSession) : AsyncSession :=
  mkSession (persisted s) w (pending s) (inserted s) (now s).

Definition update_reviews (f : ReviewModel.Review -> ReviewModel.Review)
    (pk : Z) (db : Database) : Database :=
  mkDatabase
    (map (fun r => if ReviewModel.id r =? pk then f r else r) (reviews db))
    (products db) (reviews_id_seq db).

Definition update_products (f : ProductModel.Product -> ProductModel.Product)
    (pk : Z) (db : Database) : Database :=
  mkDatabase (reviews db)
    (map (fun p => if ProductModel.id p =? pk then f p else p) (products db))
    (reviews_id_seq db).

Definition nextval (db : Database) : Database :=
  mkDatabase (reviews db) (products db) (reviews_id_seq db + 1).

(** The row an INSERT stores: the primary key comes from the sequence,
    [comment_date] from [default=datetime.now] and [is_active] from
    [default=True]. *)
Definition row_of (pk clock : Z) (t : TransientReview) : ReviewModel.Review :=
  ReviewModel.mk pk (t_user_id t) (t_product_id t) (t_comment t) clock (t_grade t) true.

(** One statement of a flush.  A value taken from the sequence is not
    given back when the transaction is abandoned. *)
Definition flush_one (w : Write) : M AsyncSession unit := fun s =>
  match w with
  | INSERT_review t =>
      let pk := reviews_id_seq (working s) in
      let s' := mkSession (nextval (persisted s)) (nextval (working s))
                  (pending s) (inserted s) (now s) in
      if existsb (fun r => ReviewModel.id r =? pk) (reviews (working s')) then
        (Raise IntegrityError, s')
      else
        let db := working s' in
        let db' := mkDatabase (reviews db ++ [row_of pk (now s) t])
                     (products db) (reviews_id_seq db) in
        (Return tt, mkSession (persisted s') db' (pending s') (Some pk) (now s'))
  | UPDATE_review_is_active pk b =>
      (Return tt, set_working (update_reviews (ReviewModel.set_is_active b) pk (working s)) s)
  | UPDATE_product_rating pk q =>
      (Return tt, set_working (update_products (ProductModel.set_rating q) pk (working s)) s)
  end.

Fixpoint flush_all (ws : list Write) : M AsyncSession unit :=
  match ws with
  | [] => mret tt
  | w :: ws' => flush_one w;; flush_all ws'
  end.

Definition flush : M AsyncSession unit := fun s =>
  flush_all (pending s)
    (mkSession (persisted s) (working s) [] (inserted s) (now s)).

Definition add_write (w : Write) : M AsyncSession unit := fun s =>
  (Return tt, mkSession (persisted s) (working s) (pending s ++ [w]) (inserted s) (now s)).

(** [db.add(obj)] *)
Definition db_add (t : TransientReview) : M AsyncSession unit :=
  add_write (INSERT_review t).

(** [await db.scalars(select(ReviewModel).where(...))]: the session flushes
    before it queries (autoflush is on by default). *)
Definition scalars_reviews (where_ : ReviewModel.Review -> bool)
    : M AsyncSession (list ReviewModel.Review) :=
  flush;; s ← get_state; mret (List.filter where_ (reviews (working s))).

Definition scalars_products (where_ : ProductModel.Product -> bool)
    : M AsyncSession (list ProductModel.Product) :=
  flush;; s ← get_state; mret (List.filter where_ (products (working s))).

(** [.first()] *)
Definition first {A} (rows : list A) : option A := head rows.

(** SQL [AVG] over integers: NULL over no row. *)
Definition sum_grades (gs : list Z) : Z := fold_right Z.add 0 gs.

Definition avg (gs : list Z) : option Q :=
  match gs with
  | [] => None
  | _ => Some (Qmake (sum_grades gs) (Pos.of_nat (length gs)))
  end.

(** [(await db.execute(select(func.avg(ReviewModel.grade)).where(...))).scalar()] *)
Definition execute_avg_grade (where_ : ReviewModel.Review -> bool)
    : M AsyncSession (option Q) :=
  flush;; s ← get_state;
  mret (avg (map ReviewModel.grade (List.filter where_ (reviews (working s))))).

(** [x or 0.0]: [None] and a zero are both falsy. *)
Definition or_zero (x : option Q) : Q :=
  match x with
  | None => 0%Q
  | Some q => if Qeq_bool q 0 then 0%Q else q
  end.

(** [await db.get(ProductModel, pk)]: by primary key only. *)
Definition db_get_product (pk : Z) : M AsyncSession (option ProductModel.Product) :=
  flush;; s ← get_state;
  mret (find (fun p => ProductModel.id p =? pk) (products (working s))).

(** [product.rating = v]: an attribute of [None] cannot be set. *)
Definition setattr_rating (product : option ProductModel.Product) (v : Q)
    : M AsyncSession unit :=
  match product with
  | None => raise AttributeError
  | Some p => add_write (UPDATE_product_rating (ProductModel.id p) v)
  end.

(** [review.is_active = v] *)
Definition setattr_is_active (review : ReviewModel.Review) (v : bool)
    : M AsyncSession unit :=
  add_write (UPDATE_review_is_active (ReviewModel.id review) v).

(** [await db.commit()] *)
Definition db_commit : M AsyncSession unit :=
  flush;; s ← get_state;
  put_state (mkSession (working s) (working s) [] (inserted s) (now s)).

(** [await db.refresh(obj)] for the object with primary key [pk]. *)
Definition db_refresh (pk : option Z) : M AsyncSession ReviewModel.Review :=
  s ← get_state;
  match pk with
  | None => raise AttributeError
  | Some k =>
      match find (fun r => ReviewModel.id r =? k) (reviews (working s)) with
      | Some r => mret r
      | None => raise AttributeError
      end
  end.

(** A request: the handler runs in a new session, and whatever it did not
    commit is gone when the session is closed. *)
Definition run_request {A} (clock : Z) (handler : M AsyncSession A)
    (db : Database) : Result A * Database :=
  let '(res, s) := handler (begin clock db) in (res, persisted s).

(** ** app/routers/reviews.py *)

Module routers.

(** [GET /reviews/] *)
Definition get_all_reviews : M AsyncSession (list ReviewModel.Review) :=
  stmt ← scalars_reviews (fun r => ReviewModel.is_active r);
  let reviews := stmt in
  mret reviews.

(** [GET /reviews/products/{product_id}/] *)
Definition get_all_reviews_of_product (product_id : Z)
    : M AsyncSession (list ReviewModel.Review) :=
  product ← scalars_products (fun p =>
    (ProductModel.id p =? product_id) && ProductModel.is_active p);
  match first product with
  | None => raise (HTTPException 404 "Product not found or inactive")
  | Some _ =>
      stmt ← scalars_reviews (fun r =>
        (ReviewModel.product_id r =? product_id) && ReviewModel.is_active r);
      let reviews_of_product := stmt in
      mret reviews_of_product
  end.

(** [POST /reviews/] *)
Definition create_review (comment : schemas.ReviewCreate)
    (current_user : UserModel.User) : M AsyncSession ReviewModel.Review :=
  stmt ← scalars_products (fun p =>
    (ProductModel.id p =? schemas.product_id comment) && ProductModel.is_active p);
  let product := first stmt in
  match product with
  | None => raise (HTTPException 404 "Product not found or inactive")
  | Some _ =>
      let db_review :=
        mkTransient (UserModel.id current_user) (schemas.product_id comment)
          (schemas.comment comment) (schemas.grade comment) in
      db_add db_review;;
      result ← execute_avg_grade (fun r =>
        (ReviewModel.product_id r =? schemas.product_id comment)
        && ReviewModel.is_active r);
      let avg_rating := or_zero result in
      product ← db_get_product (schemas.product_id comment);
      setattr_rating product avg_rating;;
      db_commit;;
      s ← get_state;
      db_review ← db_refresh (inserted s);
      mret db_review
  end.

(** [DELETE /reviews/{review_id}] *)
Definition delete_review (review_id : Z) (current_user : UserModel.User)
    : M AsyncSession Any :=
  stmt ← scalars_reviews (fun r =>
    (ReviewModel.id r =? review_id) && ReviewModel.is_active r);
  let review := first stmt in
  match review with
  | None => raise (HTTPException 404 "Review not found or inactive")
  | Some review =>
      if negb (ReviewModel.user_id review =? UserModel.id current_user)
         && negb (bool_decide (UserModel.role current_user = u "admin"))
      then raise (HTTPException 403 "User is not admin or author")
      else
        setattr_is_active review false;;
        result ← execute_avg_grade (fun r =>
          (ReviewModel.product_id r =? ReviewModel.product_id review)
          && ReviewModel.is_active r);
        let avg_rating := or_zero result in
        product ← db_get_product (ReviewModel.product_id review);
        setattr_rating product avg_rating;;
        db_commit;;
        db_refresh (Some (ReviewModel.id review));;
        mret (dict [("Message"%string, Str (u "Review deleted"))])
  end.

End routers.

(** ** Python's [decimal], [uuid] and string formatting, as far as
       app/payments.py uses them *)

Module decimal.
(** A finite [Decimal]: [(-1)^sign * coefficient * 10^exponent].  NaN and
    the infinities are not amounts of money and are left out. *)
Record Decimal := mk {
  sign : bool;
  coefficient : N;
  exponent : Z
}.

(** The coefficient of the value rescaled to two places, rounding half
    to even (the rounding of the default context). *)
Definition rescale2 (d : Decimal) : N :=
  if -2 <=? exponent d then
    (coefficient d * 10 ^ Z.to_N (exponent d + 2))%N
  else
    let k := (10 ^ Z.to_N (- 2 - exponent d))%N in
    let q := (coefficient d / k)%N in
    let r := (coefficient d mod k)%N in
    if (2 * r <? k)%N then q
    else if (k <? 2 * r)%N then (q + 1)%N
    else if N.even q then q else (q + 1)%N.

Definition digits (n : N) : str := u (NilZero.string_of_uint (N.to_uint n)).

Definition two_digits (n : N) : str := [(48 + n / 10)%N; (48 + n mod 10)%N].

(** [format(d, ".2f")], that is the f-string field [{d:.2f}]. *)
Definition format_2f (d : Decimal) : str :=
  let c := rescale2 d in
  (if sign d then u "-" else []) ++ digits (c / 100) ++ u "." ++ two_digits (c mod 100).
End decimal.

Module uuid.
(** [UUID(bytes=b, version=4).int], with the sixteen bytes [b] given as
    the integer they spell: the variant and version bits are forced. *)
Definition UUID_v4 (b : N) : N :=
  let int := (b mod 2 ^ 128)%N in
  let int := N.ldiff int (N.shiftl 0xc000 48) in
  let int := N.lor int (N.shiftl 0x8000 48) in
  let int := N.ldiff int (N.shiftl 0xf000 64) in
  N.lor int (N.shiftl 4 76).

Definition hexdigit (d : N) : codepoint :=
  if (d <? 10)%N then (48 + d)%N else (87 + d)%N.

(** The last [n] hexadecimal digits of [x], most significant first. *)
Fixpoint hex_digits (n : nat) (x : N) : str :=
  match n with
  | O => []
  | S n' => hex_digits n' (x / 16) ++ [hexdigit (x mod 16)]
  end.

(** The groups 8-4-4-4-12 of [str(UUID)]. *)
Definition groups (hex : str) : str :=
  take 8 hex ++ u "-" ++ take 4 (drop 8 hex) ++ u "-" ++ take 4 (drop 12 hex)
    ++ u "-" ++ take 4 (drop 16 hex) ++ u "-" ++ drop 20 hex.

(** [str(UUID)]: the 32 hexadecimal digits of the integer, grouped. *)
Definition to_str (int : N) : str := groups (hex_digits 32 int).

(** The bits [uuid4] overwrites, and what it writes there. *)
Definition forced_mask : N := N.lor (N.shiftl 0xc000 48) (N.shiftl 0xf000 64).
Definition forced_bits : N := N.lor (N.shiftl 0x8000 48) (N.shiftl 4 76).

(** The 122 bits of a draw that reach the UUID. *)
Definition free_bits (b : N) : N := N.ldiff (b mod 2 ^ 128) forced_mask.
End uuid.

(** ** app/payments.py *)

Module yookassa.
(** The objects of the gateway's client library that the code touches. *)
Record Confirmation := mkConfirmation {
  confirmation_url : option str   (* [None]: no such attribute *)
}.

Record Payment := mk {
  id : str;
  status : str;
  confirmation : option Confirmation
}.
End yookassa.

(** What a payment call can touch outside its arguments: the global
    [Configuration] of the client library, the random source of the
    operating system, and the gateway with the requests it has received. *)
Record World := mkWorld {
  Configuration_account_id : option str;
  Configuration_secret_key : option str;
  os_urandom : nat -> N;      (* the n-th draw of sixteen bytes *)
  drawn : nat;                (* draws made so far *)
  gateway : list (Any * str) -> Any -> str -> Result yookassa.Payment;
  posted : list (Any * str)   (* the (payload, idempotence key) of each POST *)
}.

(** [not x] for an optional string: [None] and the empty string are falsy. *)
Definition not_ (x : option str) : bool :=
  match x with
  | None => true
  | Some [] => true
  | Some (_ :: _) => false
  end.

Definition of_optional (x : option str) : Any :=
  match x with
  | None => NoneVal
  | Some s => Str s
  end.

Definition getindex (i : nat) (v : Any) : option Any :=
  match v with
  | List l => l !! i
  | _ => None
  end.

Arguments getindex i%_nat v.

(** [v[k1][k2]...]: a chain of subscripts, by key or by position. *)
Inductive Subscript :=
| key (k : string)
| index (i : nat).

Fixpoint at_path (path : list Subscript) (v : Any) : option Any :=
  match path with
  | [] => Some v
  | key k :: path' => getitem k v ≫= at_path path'
  | index i :: path' => getindex i v ≫= at_path path'
  end.

(** [len(v)] of a list. *)
Definition len (v : Any) : option nat :=
  match v with
  | List l => Some (length l)
  | _ => None
  end.

Module payments.
Section app_config.
(** [from app.config import ...]: the configuration module is not part
    of the sources at hand; its three constants are parameters. *)
Variable YOOKASSA_RETURN_URL : option str.
Variable YOOKASSA_SECRET_KEY : option str.
Variable YOOKASSA_SHOP_ID : option str.

(** [uuid4()] *)
Definition uuid4 : M World N := fun w =>
  (Return (uuid.UUID_v4 (os_urandom w (drawn w))),
   mkWorld (Configuration_account_id w) (Configuration_secret_key w)
     (os_urandom w) (S (drawn w)) (gateway w) (posted w)).

(** [Payment.create(payload, idempotence_key)] *)
Definition Payment_create (payload : Any) (idempotence_key : str)
    : M World yookassa.Payment := fun w =>
  (gateway w (posted w) payload idempotence_key,
   mkWorld (Configuration_account_id w) (Configuration_secret_key w)
     (os_urandom w) (drawn w) (gateway w) (posted w ++ [(payload, idempotence_key)])).

Definition configure (account_id secret_key : option str) : M World unit := fun w =>
  (Return tt,
   mkWorld account_id secret_key (os_urandom w) (drawn w) (gateway w) (posted w)).

(** The [payload] dictionary of the function. *)
Definition payload (order_id : Z) (amount : decimal.Decimal)
    (user_email description : str) : Any :=
  dict [
    ("amount", dict [
       ("value", Str (decimal.format_2f amount));
       ("currency", Str (u "RUB"))]);
    ("confirmation", dict [
       ("type", Str (u "redirect"));
       ("return_url", of_optional YOOKASSA_RETURN_URL)]);
    ("capture", Bool true);
    ("description", Str description);
    ("metadata", dict [
       ("order_id", Int order_id)]);
    ("receipt", dict [
       ("customer", dict [
          ("email", Str user_email)]);
       ("items", List [
          dict [
            ("description", Str (take 128 description));
            ("quantity", Str (u "1.00"));
            ("amount", dict [
               ("value", Str (decimal.format_2f amount));
               ("currency", Str (u "RUB"))]);
            ("vat_code", Int 1);
            ("payment_mode", Str (u "full_prepayment"));
            ("payment_subject", Str (u "commodity"))]])])
  ]%string.

Definition configuration_error : Exception :=
  RuntimeError "Задайте YOOKASSA_SHOP_ID и YOOKASSA_SECRET_KEY в .env".

Definition create_yookassa_payment (order_id : Z) (amount : decimal.Decimal)
    (user_email description : str) : M World Any :=
  if not_ YOOKASSA_SHOP_ID || not_ YOOKASSA_SECRET_KEY then
    raise configuration_error
  else
    configure YOOKASSA_SHOP_ID YOOKASSA_SECRET_KEY;;
    let payload := payload order_id amount user_email description in
    let _request : M World yookassa.Payment :=
      id ← uuid4;
      Payment_create payload (uuid.to_str id) in
    payment ← _request;
    let confirmation_url :=
      c ← yookassa.confirmation payment; yookassa.confirmation_url c in
    mret (dict [
      ("id", Str (yookassa.id payment));
      ("status", Str (yookassa.status payment));
      ("confirmation_url", of_optional confirmation_url)
    ]%string).
End app_config.
End payments.

(** * Vocabulary of the properties *)

(** ** What a request leaves behind *)

Definition active_of_product (pid : Z) (r : ReviewModel.Review) : bool :=
  (ReviewModel.product_id r =? pid) && ReviewModel.is_active r.

Definition active_reviews (pid : Z) (db : Database) : list ReviewModel.Review :=
  List.filter (active_of_product pid) (reviews db).

Definition active_grades (pid : Z) (db : Database) : list Z :=
  map ReviewModel.grade (active_reviews pid db).

Definition soft_delete (pk : Z) (r : ReviewModel.Review) : ReviewModel.Review :=
  if ReviewModel.id r =? pk then ReviewModel.set_is_active false r else r.

Definition rate (pk : Z) (q : Q) (p : ProductModel.Product) : ProductModel.Product :=
  if ProductModel.id p =? pk then ProductModel.set_rating q p else p.

(** ** The arithmetic mean, in the words of the specification *)


(** ** Review mutations as labelled steps of the database *)

Inductive Event :=
| Created (r : ReviewModel.Review)
| SoftDeleted (review : ReviewModel.Review).

(** The product a mutation affects. *)
Definition subject (e : Event) : Z :=
  match e with
  | Created r => ReviewModel.product_id r
  | SoftDeleted review => ReviewModel.product_id review
  end.

Definition find_active_review (review_id : Z) (db : Database)
    : option ReviewModel.Review :=
  first (List.filter (fun r => (ReviewModel.id r =? review_id)
                               && ReviewModel.is_active r) (reviews db)).

Inductive step (db : Database) : Event -> Database -> Prop :=
| step_create clock comment user r db' :
    run_request clock (routers.create_review comment user) db = (Return r, db') ->
    step db (Created r) db'
| step_delete clock review_id user review msg db' :
    run_request clock (routers.delete_review review_id user) db = (Return msg, db') ->
    find_active_review review_id db = Some review ->
    step db (SoftDeleted review) db'.

(** ** A worked scenario: one product, two buyers, an administrator *)

Module Scenario.
Definition P (rating : Q) : ProductModel.Product := ProductModel.mk 7 true rating [].
Definition hidden : ProductModel.Product := ProductModel.mk 8 false 0 [].
Definition alice : UserModel.User := UserModel.mk 10 (u "buyer").
Definition bob : UserModel.User := UserModel.mk 11 (u "buyer").
Definition root : UserModel.User := UserModel.mk 12 (u "admin").
Definition review1 : ReviewModel.Review := ReviewModel.mk 1 10 7 None 100 4 true.
Definition review2 : ReviewModel.Review := ReviewModel.mk 2 11 7 None 101 2 true.
Definition deleted (r : ReviewModel.Review) := ReviewModel.set_is_active false r.
(** Nothing reviewed yet; then alice grades 4, bob grades 2, bob withdraws
    his review, and the administrator removes the one of alice. *)
Definition db0 : Database := mkDatabase [] [P 0; hidden] 1.
Definition db1 : Database := mkDatabase [review1] [P 4; hidden] 2.
Definition db2 : Database := mkDatabase [review1; review2] [P (6 # 2); hidden] 3.
Definition db3 : Database := mkDatabase [review1; deleted review2] [P 4; hidden] 3.
Definition db4 : Database := mkDatabase [deleted review1; deleted review2] [P 0; hidden] 3.
(** A review left active on a product that was deactivated afterwards. *)
Definition orphan : ReviewModel.Review := ReviewModel.mk 5 10 8 None 90 5 true.
Definition db5 : Database := mkDatabase [orphan] [P 0; hidden] 6.
Definition deleted_message : Any := dict [("Message"%string, Str (u "Review deleted"))].
End Scenario.

(** ** The text of an amount *)

Definition is_digit (c : codepoint) : bool := (48 <=? c)%N && (c <=? 57)%N.

(** The number a string of decimal digits spells. *)
Definition number (s : str) : N :=
  fold_left (fun acc c => (10 * acc + (c - 48))%N) s 0%N.

(** [s] is a fixed two-decimal text of [hundredths] hundredths: a minus
    sign when [negative], at least one digit, a point, exactly two digits. *)
Definition reads_as (s : str) (negative : bool) (hundredths : N) : Prop :=
  exists int_part d1 d2,
    s = (if negative then u "-" else []) ++ int_part ++ u "." ++ [d1; d2]
    /\ int_part <> []
    /\ Forall (fun c => is_digit c = true) int_part
    /\ is_digit d1 = true /\ is_digit d2 = true
    /\ (100 * number int_part + number [d1; d2])%N = hundredths.

Definition fixed_2_decimal (s : str) : Prop :=
  exists negative hundredths, reads_as s negative hundredths.

(** [c] hundredths is the magnitude of [d] at two places: exactly when [d]
    has no more than two, else the nearest, and the even one of two
    nearest. *)
Definition to_hundredths (d : decimal.Decimal) (c : N) : Prop :=
  if -2 <=? decimal.exponent d then
    c = (decimal.coefficient d * 10 ^ Z.to_N (decimal.exponent d + 2))%N
  else
    let k := (10 ^ Z.to_N (- 2 - decimal.exponent d))%N in
    let x := decimal.coefficient d in
    (2 * (c * k) <= 2 * x + k)%N /\ (2 * x <= 2 * (c * k) + k)%N
    /\ ((2 * (c * k) = 2 * x + k \/ 2 * x = 2 * (c * k) + k)%N -> N.even c = true).

(** The keys sent to the gateway so far. *)
Definition idempotence_keys (w : World) : list str := map snd (posted w).

(** ** A checkout *)

Module Checkout.
Definition SHOP_ID : option str := Some (u "shop").
Definition SECRET_KEY : option str := Some (u "secret").
Definition RETURN_URL : option str := Some (u "https://shop.example/return").
Definition pending : yookassa.Payment :=
  yookassa.mk (u "payment-1") (u "pending")
    (Some (yookassa.mkConfirmation (Some (u "https://gateway.example/pay")))).
(** A world in which the gateway accepts everything. *)
Definition world (urandom : nat -> N) : World :=
  mkWorld None None urandom 0 (fun _ _ _ => Return pending) [].
(** [Decimal("100.00")] *)
Definition amount : decimal.Decimal := decimal.mk false 10000 (-2).
Definition pay (SHOP_ID SECRET_KEY : option str) (description : str) : M World Any :=
  payments.create_yookassa_payment RETURN_URL SECRET_KEY SHOP_ID
    42 amount (u "a@b.com") description.
Definition zero_key : str := u "00000000-0000-4000-8000-000000000000".
End Checkout.

(** ** Databases served by requests *)

(** The ids of the reviews are a primary key. *)
Definition unique_ids (db : Database) : Prop :=
  List.NoDup (map ReviewModel.id (reviews db)).

(** Every product carries the aggregate of its own active reviews. *)
Definition rated (db : Database) : Prop :=
  forall p, In p (products db) ->
    (ProductModel.rating p
     == or_zero (avg (active_grades (ProductModel.id p) db)))%Q.

(** One request to one of the four endpoints, whatever it answers. *)
Inductive request (db : Database) : Database -> Prop :=
| request_get_all_reviews clock :
    request db (snd (run_request clock routers.get_all_reviews db))
| request_get_all_reviews_of_product clock product_id :
    request db
      (snd (run_request clock (routers.get_all_reviews_of_product product_id) db))
| request_create_review clock comment user :
    request db (snd (run_request clock (routers.create_review comment user) db))
| request_delete_review clock review_id user :
    request db (snd (run_request clock (routers.delete_review review_id user) db)).

(** ** Amounts and gateways *)

(** Two decimals of the same sign that denote the same number: brought to
    the smaller of the two exponents, they have the same coefficient. *)
Definition same_amount (d1 d2 : decimal.Decimal) : Prop :=
  decimal.sign d1 = decimal.sign d2
  /\ let m := Z.min (decimal.exponent d1) (decimal.exponent d2) in
     (decimal.coefficient d1 * 10 ^ Z.to_N (decimal.exponent d1 - m)
      = decimal.coefficient d2 * 10 ^ Z.to_N (decimal.exponent d2 - m))%N.

Module Outage.
(** A world in which the gateway is down. *)
Definition world : World :=
  mkWorld None None N.of_nat 0 (fun _ _ _ => Raise (ApiError "gateway timeout")) [].
(** A payment the gateway created without a confirmation to follow. *)
Definition bare : yookassa.Payment := yookassa.mk (u "payment-2") (u "pending") None.
Definition quiet : World :=
  mkWorld None None N.of_nat 0 (fun _ _ _ => Return bare) [].
End Outage.

(** ** Several calls in a row *)

(** The arguments of one call. *)
Record Order := mkOrder {
  o_order_id : Z;
  o_amount : decimal.Decimal;
  o_user_email : str;
  o_description : str
}.

Definition payload_of (RETURN_URL : option str) (o : Order) : Any :=
  payments.payload RETURN_URL (o_order_id o) (o_amount o) (o_user_email o)
    (o_description o).

(** The key made of the [n]-th draw of a random source. *)
Definition key_of (urandom : nat -> N) (n : nat) : str :=
  uuid.to_str (uuid.UUID_v4 (urandom n)).

(** One call for each order, one after the other, whatever each answers. *)
Fixpoint pay_all (RETURN_URL SECRET_KEY SHOP_ID : option str)
    (orders : list Order) (w : World) : World :=
  match orders with
  | [] => w
  | o :: rest =>
      pay_all RETURN_URL SECRET_KEY SHOP_ID rest
        (snd (payments.create_yookassa_payment RETURN_URL SECRET_KEY SHOP_ID
                (o_order_id o) (o_amount o) (o_user_email o) (o_description o) w))
  end.

(** ** The text of a key *)

Definition is_hex (c : codepoint) : bool :=
  is_digit c || ((97 <=? c)%N && (c <=? 102)%N).

(** The canonical text of a version 4 UUID: lowercase hexadecimal digits
    in groups of 8, 4, 4, 4 and 12 with hyphens between them, the third
    group opening with 4 and the fourth with 8, 9, a or b. *)
Definition uuid4_text (s : str) : Prop :=
  exists a b c d e,
    s = a ++ u "-" ++ b ++ u "-" ++ c ++ u "-" ++ d ++ u "-" ++ e
    /\ length a = 8%nat /\ length b = 4%nat /\ length c = 4%nat
    /\ length d = 4%nat /\ length e = 12%nat
    /\ Forall (fun x => is_hex x = true) (a ++ b ++ c ++ d ++ e)
    /\ head c = Some 52%N
    /\ exists v, head d = Some v /\ In v [56; 57; 97; 98]%N.

(** ** The sequence of review ids *)

(** The sequence is ahead of every id in use, as it is when all ids came
    from it. *)
Definition sequence_ahead (db : Database) : Prop :=
  forall r, In r (reviews db) -> ReviewModel.id r < reviews_id_seq db.

(** * Properties *)

Ltac run_handler :=
  cbv beta iota zeta delta
    [run_request begin scalars_products scalars_reviews execute_avg_grade
     db_get_product db_commit db_add db_refresh setattr_is_active
     setattr_rating add_write flush flush_all flush_one get_state put_state
     raise mbind M_bind mret M_ret pending working persisted inserted now
     set_working update_reviews update_products nextval];
  cbn [app reviews products reviews_id_seq].

Lemma run_get_all_reviews clock db :
  run_request clock routers.get_all_reviews db
  = (Return (List.filter ReviewModel.is_active (reviews db)), db).
Proof. reflexivity. Qed.

Lemma run_get_all_reviews_of_product clock product_id db :
  run_request clock (routers.get_all_reviews_of_product product_id) db
  = match first (List.filter (fun p => (ProductModel.id p =? product_id)
                                      && ProductModel.is_active p) (products db)) with
    | None => (Raise (HTTPException 404 "Product not found or inactive"), db)
    | Some _ => (Return (active_reviews product_id db), db)
    end.
Proof.
  unfold routers.get_all_reviews_of_product. run_handler.
  destruct (first _); reflexivity.
Qed.

Lemma run_create_review clock comment user db :
  let pid := schemas.product_id comment in
  let pk := reviews_id_seq db in
  let row := ReviewModel.mk pk (UserModel.id user) pid (schemas.comment comment)
               clock (schemas.grade comment) true in
  let rows := reviews db ++ [row] in
  let avg_rating := or_zero (avg (map ReviewModel.grade
                      (List.filter (active_of_product pid) rows))) in
  run_request clock (routers.create_review comment user) db
  = match first (List.filter (fun p => (ProductModel.id p =? pid)
                                      && ProductModel.is_active p) (products db)) with
    | None => (Raise (HTTPException 404 "Product not found or inactive"), db)
    | Some _ =>
        if existsb (fun r => ReviewModel.id r =? pk) (reviews db) then
          (Raise IntegrityError, nextval db)
        else
          match find (fun p => ProductModel.id p =? pid) (products db) with
          | None => (Raise AttributeError, nextval db)
          | Some p =>
              (match find (fun r => ReviewModel.id r =? pk) rows with
               | Some r => Return r
               | None => Raise AttributeError
               end,
               mkDatabase rows (map (rate (ProductModel.id p) avg_rating) (products db))
                 (pk + 1))
          end
    end.
Proof.
  intros pid pk row rows avg_rating.
  unfold routers.create_review. run_handler.
  destruct (first _) as [found|]; [|reflexivity].
  run_handler.
  destruct (existsb _ _); [reflexivity|].
  run_handler.
  destruct (find _ (products db)) as [p|]; [|reflexivity].
  run_handler.
  change (row_of _ _ _) with row. fold rows.
  destruct (find _ rows); reflexivity.
Qed.

Lemma run_delete_review clock review_id user db :
  run_request clock (routers.delete_review review_id user) db
  = match first (List.filter (fun r => (ReviewModel.id r =? review_id)
                                      && ReviewModel.is_active r) (reviews db)) with
    | None => (Raise (HTTPException 404 "Review not found or inactive"), db)
    | Some review =>
        if negb (ReviewModel.user_id review =? UserModel.id user)
           && negb (bool_decide (UserModel.role user = u "admin"))
        then (Raise (HTTPException 403 "User is not admin or author"), db)
        else
          let pid := ReviewModel.product_id review in
          let rows := map (soft_delete (ReviewModel.id review)) (reviews db) in
          let avg_rating := or_zero (avg (map ReviewModel.grade
                              (List.filter (active_of_product pid) rows))) in
          match find (fun p => ProductModel.id p =? pid) (products db) with
          | None => (Raise AttributeError, db)
          | Some p =>
              (match find (fun r => ReviewModel.id r =? ReviewModel.id review) rows with
               | Some _ => Return (dict [("Message"%string, Str (u "Review deleted"))])
               | None => Raise AttributeError
               end,
               mkDatabase rows (map (rate (ProductModel.id p) avg_rating) (products db))
                 (reviews_id_seq db))
          end
    end.
Proof.
  unfold routers.delete_review. run_handler.
  destruct (first _) as [review|]; [|reflexivity].
  destruct (negb _ && negb _); [reflexivity|].
  run_handler.
  destruct (find _ (products db)) as [p|]; [|reflexivity].
  run_handler.
  fold (soft_delete (ReviewModel.id review)).
  destruct (find _ (map _ _)); reflexivity.
Qed.

(** ** Lists of rows *)

Lemma first_In {A} (l : list A) (x : A) : first l = Some x -> In x l.
Proof. destruct l; simpl; [discriminate | intros [= ->]; now left]. Qed.

Lemma first_filter_None {A} (f : A -> bool) (l : list A) :
  (forall x, In x l -> f x = false) -> first (List.filter f l) = None.
Proof.
  induction l as [|a l IH]; intros H; simpl; [reflexivity|].
  rewrite (H a (or_introl eq_refl)). apply IH. intros x Hx. apply H. now right.
Qed.

Lemma first_filter_Some {A} (f : A -> bool) (l : list A) (x : A) :
  In x l -> f x = true -> exists y, first (List.filter f l) = Some y.
Proof.
  intros Hin Hf.
  destruct (List.filter f l) as [|y l'] eqn:E; [|now exists y].
  assert (Hx : In x (List.filter f l)) by (apply filter_In; auto).
  rewrite E in Hx. destruct Hx.
Qed.

Lemma find_app_split {A} (f : A -> bool) (l1 l2 : list A) :
  find f (l1 ++ l2) = match find f l1 with Some x => Some x | None => find f l2 end.
Proof.
  induction l1 as [|a l1 IH]; [reflexivity|].
  cbn [app find]. now destruct (f a).
Qed.

Lemma find_exists {A} (f : A -> bool) (l : list A) (x : A) :
  In x l -> f x = true -> exists y, find f l = Some y.
Proof.
  intros Hin Hf. destruct (find f l) as [y|] eqn:E; [now exists y|].
  rewrite (find_none f l E x Hin) in Hf. discriminate.
Qed.

Lemma find_id_Some (pk : Z) (l : list ProductModel.Product) p :
  find (fun p => ProductModel.id p =? pk) l = Some p ->
  In p l /\ ProductModel.id p = pk.
Proof. intros H. apply find_some in H as [Hin Heq]. split; [done | lia]. Qed.

Lemma filter_active_soft_delete pid pk (l : list ReviewModel.Review) :
  List.filter (active_of_product pid) (map (soft_delete pk) l)
  = List.filter (fun r => negb (ReviewModel.id r =? pk))
      (List.filter (active_of_product pid) l).
Proof.
  induction l as [|r l IH]; [reflexivity|].
  cbn [map List.filter]. rewrite IH. unfold soft_delete.
  destruct (ReviewModel.id r =? pk) eqn:Epk.
  - unfold active_of_product at 1. cbn [ReviewModel.set_is_active ReviewModel.is_active].
    rewrite andb_false_r.
    destruct (active_of_product pid r); [|reflexivity].
    cbn [List.filter]. now rewrite Epk.
  - destruct (active_of_product pid r); [|reflexivity].
    cbn [List.filter]. now rewrite Epk.
Qed.

Lemma rate_In pk q (l : list ProductModel.Product) p :
  In p (map (rate pk q) l) -> ProductModel.id p = pk -> ProductModel.rating p = q.
Proof.
  intros Hin Hid. apply in_map_iff in Hin as (p0 & <- & _).
  unfold rate in *. destruct (ProductModel.id p0 =? pk) eqn:E; [reflexivity|].
  apply Z.eqb_neq in E. contradiction.
Qed.

Lemma rate_In_intro pk q (l : list ProductModel.Product) p :
  In p l -> ProductModel.id p = pk -> In (ProductModel.set_rating q p) (map (rate pk q) l).
Proof.
  intros Hin Hid. apply in_map_iff. exists p. split; [|done].
  unfold rate. now rewrite Hid, Z.eqb_refl.
Qed.


Lemma or_zero_Some (q : Q) : (or_zero (Some q) == q)%Q.
Proof.
  unfold or_zero. destruct (Qeq_bool q 0) eqn:E; [|reflexivity].
  apply Qeq_bool_iff in E. now symmetry.
Qed.


Lemma find_active_review_Some review_id db review :
  find_active_review review_id db = Some review ->
  In review (reviews db) /\ ReviewModel.id review = review_id
  /\ ReviewModel.is_active review = true.
Proof.
  intros H. apply first_In, filter_In in H as [Hin H].
  apply andb_true_iff in H as [H1 H2]. repeat split; [done | lia | done].
Qed.

(** A successful [create_review], in full. *)
Lemma create_review_success clock comment user db r db' :
  run_request clock (routers.create_review comment user) db = (Return r, db') ->
  let pid := schemas.product_id comment in
  r = ReviewModel.mk (reviews_id_seq db) (UserModel.id user) pid
        (schemas.comment comment) clock (schemas.grade comment) true
  /\ (exists p, In p (products db) /\ ProductModel.id p = pid
                /\ ProductModel.is_active p = true)
  /\ db' = mkDatabase (reviews db ++ [r])
             (map (rate pid (or_zero (avg (active_grades pid
                (mkDatabase (reviews db ++ [r]) (products db) (reviews_id_seq db))))))
                (products db))
             (reviews_id_seq db + 1).
Proof.
  intros H pid. rewrite run_create_review in H. fold pid in H.
  destruct (first _) as [found|] eqn:Efound; [|discriminate].
  apply first_In, filter_In in Efound as [Hfound Hact].
  apply andb_true_iff in Hact as [Hid Hact]. apply Z.eqb_eq in Hid.
  destruct (existsb _ _) eqn:Efresh; [discriminate|].
  destruct (find _ (products db)) as [p|] eqn:Ep; [|discriminate].
  apply find_id_Some in Ep as [_ Hp].
  rewrite find_app_split in H.
  destruct (find _ (reviews db)) as [r0|] eqn:Er0.
  { apply find_some in Er0 as [Hin Heq].
    assert (existsb (fun r => ReviewModel.id r =? reviews_id_seq db) (reviews db) = true)
      by (apply existsb_exists; eauto).
    congruence. }
  cbn [find ReviewModel.id] in H. rewrite Z.eqb_refl in H.
  injection H as <- <-. rewrite Hp.
  split; [reflexivity|]. split; [eauto|reflexivity].
Qed.

(** A successful [delete_review], in full. *)
Lemma delete_review_success clock review_id user db msg db' :
  run_request clock (routers.delete_review review_id user) db = (Return msg, db') ->
  exists review,
    find_active_review review_id db = Some review
    /\ (ReviewModel.user_id review = UserModel.id user
        \/ UserModel.role user = u "admin")
    /\ (exists p, In p (products db)
                  /\ ProductModel.id p = ReviewModel.product_id review)
    /\ let pid := ReviewModel.product_id review in
       let rows := map (soft_delete review_id) (reviews db) in
       db' = mkDatabase rows
               (map (rate pid (or_zero (avg (active_grades pid
                  (mkDatabase rows (products db) (reviews_id_seq db))))))
                  (products db))
               (reviews_id_seq db).
Proof.
  intros H. rewrite run_delete_review in H.
  fold (find_active_review review_id db) in H.
  destruct (find_active_review review_id db) as [review|] eqn:Efound; [|discriminate].
  exists review. split; [reflexivity|].
  destruct (find_active_review_Some _ _ _ Efound) as (Hin & Hid & Hact).
  destruct (negb _ && negb _) eqn:Eauth; [discriminate|].
  cbv zeta in H.
  destruct (find _ (products db)) as [p|] eqn:Ep; [|discriminate].
  apply find_id_Some in Ep as [Hpin Hp].
  destruct (find _ (map _ _)); [|discriminate].
  injection H as _ <-. rewrite Hp, Hid.
  split; [|split; [eauto | reflexivity]].
  apply andb_false_iff in Eauth as [E|E]; apply negb_false_iff in E.
  - left. lia.
  - right. now apply bool_decide_eq_true in E.
Qed.

(** [create_review] does succeed for an active product when the sequence
    hands out an unused id. *)
Lemma create_review_succeeds clock comment user db p :
  In p (products db) -> ProductModel.id p = schemas.product_id comment ->
  ProductModel.is_active p = true ->
  (forall r, In r (reviews db) -> ReviewModel.id r <> reviews_id_seq db) ->
  exists r db',
    run_request clock (routers.create_review comment user) db = (Return r, db').
Proof.
  intros Hp Hpid Hact Hfresh. rewrite run_create_review. cbv zeta.
  destruct (first_filter_Some
              (fun p => (ProductModel.id p =? schemas.product_id comment)
                        && ProductModel.is_active p) (products db) p Hp) as (p0 & ->).
  { rewrite Hact, andb_true_r. now apply Z.eqb_eq. }
  replace (existsb _ (reviews db)) with false.
  2:{ symmetry. apply not_true_is_false. intros E.
      apply existsb_exists in E as (r & Hr & E). apply Z.eqb_eq in E.
      now apply (Hfresh r Hr). }
  destruct (find_exists (fun p => ProductModel.id p =? schemas.product_id comment)
              (products db) p Hp) as (p1 & ->); [now apply Z.eqb_eq|].
  rewrite find_app_split.
  destruct (find _ (reviews db)); [eauto|].
  cbn [find ReviewModel.id]. rewrite Z.eqb_refl. eauto.
Qed.

(** [delete_review] does succeed for the author or an administrator when
    the row of the product is there. *)
Lemma delete_review_succeeds clock review_id user db review :
  find_active_review review_id db = Some review ->
  ReviewModel.user_id review = UserModel.id user \/ UserModel.role user = u "admin" ->
  (exists p, In p (products db) /\ ProductModel.id p = ReviewModel.product_id review) ->
  exists db',
    run_request clock (routers.delete_review review_id user) db
    = (Return (dict [("Message"%string, Str (u "Review deleted"))]), db').
Proof.
  intros Hfound Hauth (p & Hp & Hpid).
  destruct (find_active_review_Some _ _ _ Hfound) as (Hin & Hid & _).
  rewrite run_delete_review. fold (find_active_review review_id db). rewrite Hfound.
  replace (negb (ReviewModel.user_id review =? UserModel.id user)
           && negb (bool_decide (UserModel.role user = u "admin"))) with false.
  2:{ symmetry. apply andb_false_iff. destruct Hauth as [E|E].
      - left. apply negb_false_iff. now apply Z.eqb_eq.
      - right. apply negb_false_iff. now apply bool_decide_eq_true. }
  cbv zeta.
  destruct (find_exists (fun p => ProductModel.id p =? ReviewModel.product_id review)
              (products db) p Hp) as (p' & ->); [now apply Z.eqb_eq|].
  destruct (find_exists (fun r => ReviewModel.id r =? ReviewModel.id review)
              (map (soft_delete (ReviewModel.id review)) (reviews db))
              (soft_delete (ReviewModel.id review) review)) as (r' & ->).
  - now apply in_map.
  - unfold soft_delete. rewrite Z.eqb_refl. cbn. apply Z.eqb_refl.
  - eexists. reflexivity.
Qed.

(** What every step establishes: the affected product exists, its rating is
    the aggregate over its active reviews as they are after the step, and
    these reviews are the former ones with the created review added or the
    deleted one left out. *)
Lemma step_rating db e db' :
  step db e db' ->
  let pid := subject e in
  (exists p, In p (products db') /\ ProductModel.id p = pid)
  /\ (forall p, In p (products db') -> ProductModel.id p = pid ->
        ProductModel.rating p = or_zero (avg (active_grades pid db')))
  /\ match e with
     | Created r => active_reviews pid db' = active_reviews pid db ++ [r]
     | SoftDeleted review =>
         active_reviews pid db'
         = List.filter (fun r => negb (ReviewModel.id r =? ReviewModel.id review))
             (active_reviews pid db)
     end.
Proof.
  intros Hstep.
  destruct Hstep as [clock comment user r db' H | clock review_id user review msg db' H Hfound].
  - apply create_review_success in H as (Hr & (p & Hp & Hpid & _) & ->).
    assert (Hsub : subject (Created r) = schemas.product_id comment) by now rewrite Hr.
    cbv zeta. rewrite Hsub. cbn [products reviews].
    split; [|split].
    + exists (ProductModel.set_rating
        (or_zero (avg (active_grades (schemas.product_id comment)
           (mkDatabase (reviews db ++ [r]) (products db) (reviews_id_seq db))))) p).
      split; [now apply rate_In_intro | exact Hpid].
    + intros p' Hin Hid. now apply (rate_In _ _ _ _ Hin).
    + unfold active_reviews. cbn [reviews]. rewrite List.filter_app. f_equal.
      cbn [List.filter]. unfold active_of_product at 1.
      rewrite Hr at 1 2. cbn [ReviewModel.product_id ReviewModel.is_active].
      now rewrite Z.eqb_refl.
  - apply delete_review_success in H as (review' & Hfound' & _ & (p & Hp & Hpid) & ->).
    assert (review' = review) as -> by congruence.
    destruct (find_active_review_Some _ _ _ Hfound) as (_ & Hid & _).
    cbv zeta. cbn [subject products reviews].
    split; [|split].
    + eexists. split; [apply rate_In_intro; eassumption | exact Hpid].
    + intros p' Hin Hid'. now apply (rate_In _ _ _ _ Hin).
    + unfold active_reviews. cbn [reviews]. rewrite Hid.
      apply filter_active_soft_delete.
Qed.

Example scenario_runs :
  run_request 100 (routers.create_review (schemas.mk 7 None 4) Scenario.alice) Scenario.db0
  = (Return Scenario.review1, Scenario.db1)
  /\ run_request 101 (routers.create_review (schemas.mk 7 None 2) Scenario.bob) Scenario.db1
  = (Return Scenario.review2, Scenario.db2)
  /\ run_request 102 (routers.delete_review 2 Scenario.bob) Scenario.db2
  = (Return Scenario.deleted_message, Scenario.db3)
  /\ run_request 103 (routers.delete_review 1 Scenario.root) Scenario.db3
  = (Return Scenario.deleted_message, Scenario.db4).
Proof. repeat split; vm_compute; reflexivity. Qed.

(** ** The claims about reviews and ratings *)



(** C2. With no active review the aggregate is exactly 0, not NULL and not
    an error: this is what the aggregation makes of no grade at all, what
    every step persists for a product it leaves without active reviews, and
    in particular what deleting the last active review of a product does,
    which succeeds. *)
Theorem rating_zero_without_active_reviews :
  or_zero (avg []) = 0%Q
  /\ (forall db e db',
        step db e db' -> active_reviews (subject e) db' = [] ->
        forall p, In p (products db') -> ProductModel.id p = subject e ->
          ProductModel.rating p = 0%Q)
  /\ (forall clock review_id user db review,
        find_active_review review_id db = Some review ->
        ReviewModel.user_id review = UserModel.id user
          \/ UserModel.role user = u "admin" ->
        (exists p, In p (products db)
                   /\ ProductModel.id p = ReviewModel.product_id review) ->
        active_reviews (ReviewModel.product_id review) db = [review] ->
        exists msg db',
          run_request clock (routers.delete_review review_id user) db = (Return msg, db')
          /\ active_reviews (ReviewModel.product_id review) db' = []
          /\ (exists p, In p (products db')
                        /\ ProductModel.id p = ReviewModel.product_id review)
          /\ forall p, In p (products db') ->
               ProductModel.id p = ReviewModel.product_id review ->
               ProductModel.rating p = 0%Q).
Proof.
  assert (Hzero : forall db e db',
            step db e db' -> active_reviews (subject e) db' = [] ->
            forall p, In p (products db') -> ProductModel.id p = subject e ->
              ProductModel.rating p = 0%Q).
  { intros db e db' Hstep Hnone p Hin Hid.
    destruct (step_rating db e db' Hstep) as (_ & Hrating & _).
    rewrite (Hrating p Hin Hid). unfold active_grades. now rewrite Hnone. }
  split; [reflexivity|]. split; [exact Hzero|].
  intros clock review_id user db review Hfound Hauth Hproduct Hlast.
  destruct (delete_review_succeeds clock review_id user db review Hfound Hauth Hproduct)
    as (db' & Hrun).
  assert (Hstep : step db (SoftDeleted review) db')
    by (eapply step_delete; eassumption).
  destruct (step_rating _ _ _ Hstep) as (Hex & _ & Hact).
  cbn [subject] in Hex, Hact.
  assert (Hnone : active_reviews (ReviewModel.product_id review) db' = []).
  { rewrite Hact, Hlast. cbn [List.filter]. now rewrite Z.eqb_refl. }
  eexists. exists db'. split; [exact Hrun|]. split; [exact Hnone|].
  split; [exact Hex|]. exact (Hzero _ _ _ Hstep Hnone).
Qed.

Lemma rating_zero_without_active_reviews_witness :
  exists msg,
    run_request 103 (routers.delete_review 1 Scenario.root) Scenario.db3
    = (Return msg, Scenario.db4)
    /\ forall p, In p (products Scenario.db4) -> ProductModel.id p = 7 ->
         ProductModel.rating p = 0%Q.
Proof.
  destruct rating_zero_without_active_reviews as (_ & _ & Hlast).
  destruct (Hlast 103 1 Scenario.root Scenario.db3 Scenario.review1)
    as (msg & db' & Hrun & _ & _ & Hzero).
  - vm_compute. reflexivity.
  - right. reflexivity.
  - exists (Scenario.P 4). split; [left|]; reflexivity.
  - vm_compute. reflexivity.
  - assert (Hdb : db' = Scenario.db4).
    { assert (E : run_request 103 (routers.delete_review 1 Scenario.root) Scenario.db3
                  = (Return Scenario.deleted_message, Scenario.db4))
        by (vm_compute; reflexivity).
      congruence. }
    subst db'. exists msg. split; [exact Hrun | exact Hzero].
Defined.

(** C3. [create_review] for a product that does not exist or is not active
    raises the 404 error and leaves the database as it was: no review row,
    no rating and no sequence value is touched. *)
Theorem create_review_product_not_found clock comment user db :
  (forall p, In p (products db) ->
     ProductModel.id p = schemas.product_id comment ->
     ProductModel.is_active p = false) ->
  run_request clock (routers.create_review comment user) db
  = (Raise (HTTPException 404 "Product not found or inactive"), db).
Proof.
  intros Hnone. rewrite run_create_review. cbv zeta.
  rewrite first_filter_None; [reflexivity|].
  intros p Hin. destruct (ProductModel.id p =? schemas.product_id comment) eqn:E.
  - apply Z.eqb_eq in E. now rewrite (Hnone p Hin E).
  - reflexivity.
Qed.

Lemma create_review_product_not_found_witness :
  run_request 100 (routers.create_review (schemas.mk 8 None 5) Scenario.alice) Scenario.db2
  = (Raise (HTTPException 404 "Product not found or inactive"), Scenario.db2)
  /\ run_request 100 (routers.create_review (schemas.mk 9 None 5) Scenario.alice) Scenario.db2
  = (Raise (HTTPException 404 "Product not found or inactive"), Scenario.db2).
Proof.
  split; apply create_review_product_not_found; intros p Hin Hid;
    vm_compute in Hin; destruct Hin as [<- | [<- | []]]; (reflexivity || discriminate).
Defined.



(** C5. A successful [delete_review] removes no row: the table has the same
    rows in the same order, each as it was except that the active flag of
    the deleted review is now false; and no listing of active reviews,
    global or by product, shows that review any more. *)
Theorem delete_review_is_soft clock review_id user db msg db' :
  run_request clock (routers.delete_review review_id user) db = (Return msg, db') ->
  (exists review, In review (reviews db) /\ ReviewModel.id review = review_id
     /\ ReviewModel.is_active review = true
     /\ In (ReviewModel.set_is_active false review) (reviews db'))
  /\ reviews db' = map (soft_delete review_id) (reviews db)
  /\ length (reviews db') = length (reviews db)
  /\ (forall r, let r' := soft_delete review_id r in
        ReviewModel.id r' = ReviewModel.id r
        /\ ReviewModel.user_id r' = ReviewModel.user_id r
        /\ ReviewModel.product_id r' = ReviewModel.product_id r
        /\ ReviewModel.comment r' = ReviewModel.comment r
        /\ ReviewModel.comment_date r' = ReviewModel.comment_date r
        /\ ReviewModel.grade r' = ReviewModel.grade r
        /\ ReviewModel.is_active r'
           = (if ReviewModel.id r =? review_id then false else ReviewModel.is_active r))
  /\ (forall clock', exists l,
        run_request clock' routers.get_all_reviews db' = (Return l, db')
        /\ forall r, In r l -> ReviewModel.id r <> review_id)
  /\ (forall clock' product_id l db'',
        run_request clock' (routers.get_all_reviews_of_product product_id) db'
        = (Return l, db'') ->
        forall r, In r l -> ReviewModel.id r <> review_id).
Proof.
  intros H.
  apply delete_review_success in H as (review & Hfound & _ & _ & ->).
  destruct (find_active_review_Some _ _ _ Hfound) as (Hin & Hid & Hact).
  cbv zeta. cbn [reviews].
  assert (Hgone : forall r, In r (map (soft_delete review_id) (reviews db)) ->
                    ReviewModel.is_active r = true -> ReviewModel.id r <> review_id).
  { intros r Hr Hra. apply in_map_iff in Hr as (r0 & <- & _).
    unfold soft_delete in *. destruct (ReviewModel.id r0 =? review_id) eqn:E.
    - discriminate Hra.
    - now apply Z.eqb_neq. }
  split; [|split; [reflexivity|split; [apply length_map|split]]].
  - exists review. repeat split; try assumption.
    apply in_map_iff. exists review. split; [|exact Hin].
    unfold soft_delete. now rewrite Hid, Z.eqb_refl.
  - intros r. unfold soft_delete.
    destruct (ReviewModel.id r =? review_id); cbn; repeat split; reflexivity.
  - split.
    + intros clock'. eexists. split; [apply run_get_all_reviews|].
      cbn [reviews]. intros r Hr. apply filter_In in Hr as [Hr Hra]. now apply Hgone.
    + intros clock' product_id l db'' Hrun r Hr.
      rewrite run_get_all_reviews_of_product in Hrun.
      destruct (first _); [|discriminate].
      injection Hrun as <- _. unfold active_reviews in Hr. cbn [reviews] in Hr.
      apply filter_In in Hr as [Hr Hra].
      apply andb_true_iff in Hra as [_ Hra]. now apply Hgone.
Qed.

Lemma delete_review_is_soft_witness :
  reviews Scenario.db3 = map (soft_delete 2) (reviews Scenario.db2)
  /\ forall r, In r (List.filter ReviewModel.is_active (reviews Scenario.db3)) ->
       ReviewModel.id r <> 2.
Proof.
  assert (Hrun : run_request 102 (routers.delete_review 2 Scenario.bob) Scenario.db2
                 = (Return Scenario.deleted_message, Scenario.db3))
    by (vm_compute; reflexivity).
  destruct (delete_review_is_soft _ _ _ _ _ _ Hrun) as (_ & Hrows & _ & _ & Hall & _).
  split; [exact Hrows|].
  destruct (Hall 0) as (l & Hl & Hnot).
  assert (Hl' : l = List.filter ReviewModel.is_active (reviews Scenario.db3)).
  { pose proof (run_get_all_reviews 0 Scenario.db3) as E. congruence. }
  rewrite <- Hl'. exact Hnot.
Defined.

(** C10. The global listing looks at the reviews only: an active review is
    listed whatever the products table holds, also when its product is
    inactive or missing, in which case the listing for that very product
    raises the 404 error. *)
Theorem get_all_reviews_ignores_the_product clock db r :
  In r (reviews db) ->
  ReviewModel.is_active r = true ->
  (forall p, In p (products db) -> ProductModel.id p = ReviewModel.product_id r ->
     ProductModel.is_active p = false) ->
  (exists l, run_request clock routers.get_all_reviews db = (Return l, db) /\ In r l)
  /\ (forall ps seq,
        fst (run_request clock routers.get_all_reviews (mkDatabase (reviews db) ps seq))
        = fst (run_request clock routers.get_all_reviews db))
  /\ run_request clock (routers.get_all_reviews_of_product (ReviewModel.product_id r)) db
     = (Raise (HTTPException 404 "Product not found or inactive"), db).
Proof.
  intros Hin Hact Hproduct. split; [|split].
  - eexists. split; [apply run_get_all_reviews|]. apply filter_In. now split.
  - intros ps seq. now rewrite !run_get_all_reviews.
  - rewrite run_get_all_reviews_of_product.
    rewrite first_filter_None; [reflexivity|].
    intros p Hp. destruct (ProductModel.id p =? ReviewModel.product_id r) eqn:E.
    + apply Z.eqb_eq in E. now rewrite (Hproduct p Hp E).
    + reflexivity.
Qed.

Lemma get_all_reviews_ignores_the_product_witness :
  (exists l, run_request 0 routers.get_all_reviews Scenario.db5 = (Return l, Scenario.db5)
             /\ In Scenario.orphan l)
  /\ run_request 0 (routers.get_all_reviews_of_product 8) Scenario.db5
     = (Raise (HTTPException 404 "Product not found or inactive"), Scenario.db5).
Proof.
  assert (Hin : In Scenario.orphan (reviews Scenario.db5)) by (left; reflexivity).
  assert (Hproduct : forall p, In p (products Scenario.db5) ->
            ProductModel.id p = ReviewModel.product_id Scenario.orphan ->
            ProductModel.is_active p = false).
  { intros p Hp Hid. vm_compute in Hp.
    destruct Hp as [<- | [<- | []]]; (reflexivity || discriminate). }
  destruct (get_all_reviews_ignores_the_product 0 Scenario.db5 Scenario.orphan
              Hin eq_refl Hproduct) as (Hlist & _ & Hnone).
  split; [exact Hlist | exact Hnone].
Defined.

(** ** UUIDs and their text *)

Module uuid_facts.

Lemma disjoint_bits (a b : N) i :
  N.land a b = 0%N -> N.testbit a i && N.testbit b i = false.
Proof. intros H. rewrite <- N.land_spec, H. apply N.bits_0. Qed.

Lemma included_bits (a b : N) i :
  N.ldiff a b = 0%N -> N.testbit a i && negb (N.testbit b i) = false.
Proof. intros H. rewrite <- N.ldiff_spec, H. apply N.bits_0. Qed.

Lemma UUID_v4_normal_form (b : N) :
  uuid.UUID_v4 b = N.lor (uuid.free_bits b) uuid.forced_bits.
Proof.
  apply N.bits_inj. intros i.
  unfold uuid.UUID_v4, uuid.free_bits, uuid.forced_mask, uuid.forced_bits.
  repeat (rewrite N.lor_spec || rewrite N.ldiff_spec).
  generalize (disjoint_bits (N.shiftl 0x8000 48) (N.shiftl 0xf000 64) i eq_refl).
  destruct (N.testbit (b mod 2 ^ 128) i), (N.testbit (N.shiftl 0xc000 48) i),
    (N.testbit (N.shiftl 0x8000 48) i), (N.testbit (N.shiftl 0xf000 64) i),
    (N.testbit (N.shiftl 4 76) i); intros D; try reflexivity; discriminate D.
Qed.

Lemma UUID_v4_eq_iff (a b : N) :
  uuid.UUID_v4 a = uuid.UUID_v4 b <-> uuid.free_bits a = uuid.free_bits b.
Proof.
  rewrite !UUID_v4_normal_form. split; [|now intros ->].
  intros H. apply N.bits_inj. intros i.
  apply (f_equal (fun x => N.testbit x i)) in H.
  rewrite !N.lor_spec in H. unfold uuid.free_bits in *.
  rewrite !N.ldiff_spec in *.
  revert H. generalize (included_bits uuid.forced_bits uuid.forced_mask i eq_refl).
  destruct (N.testbit (a mod 2 ^ 128) i), (N.testbit (b mod 2 ^ 128) i),
    (N.testbit uuid.forced_mask i), (N.testbit uuid.forced_bits i);
    intros I H; try reflexivity; discriminate.
Qed.

Lemma UUID_v4_bound (b : N) : (uuid.UUID_v4 b < 2 ^ 128)%N.
Proof.
  assert (H : (uuid.UUID_v4 b mod 2 ^ 128 = uuid.UUID_v4 b)%N).
  { apply N.bits_inj. intros i. destruct (N.lt_ge_cases i 128) as [Hi|Hi].
    - now apply N.mod_pow2_bits_low.
    - rewrite N.mod_pow2_bits_high by exact Hi.
      rewrite UUID_v4_normal_form, N.lor_spec. unfold uuid.free_bits.
      rewrite N.ldiff_spec, N.mod_pow2_bits_high by exact Hi.
      rewrite (N.bits_above_log2 uuid.forced_bits i); [reflexivity|].
      change (N.log2 uuid.forced_bits) with 78%N. lia. }
  rewrite <- H. now apply N.mod_lt.
Qed.

Lemma hexdigit_inj (a b : N) :
  (a < 16)%N -> (b < 16)%N -> uuid.hexdigit a = uuid.hexdigit b -> a = b.
Proof.
  unfold uuid.hexdigit. intros Ha Hb.
  destruct (N.ltb_spec a 10), (N.ltb_spec b 10); lia.
Qed.

Lemma hex_digits_length n x : length (uuid.hex_digits n x) = n.
Proof.
  revert x. induction n as [|n IH]; intros x; [reflexivity|].
  cbn [uuid.hex_digits]. rewrite length_app, IH. cbn. lia.
Qed.

Lemma hex_digits_inj n : forall x y,
  uuid.hex_digits n x = uuid.hex_digits n y -> (x mod 16 ^ N.of_nat n = y mod 16 ^ N.of_nat n)%N.
Proof.
  induction n as [|n IH]; intros x y H.
  - now rewrite !N.mod_1_r.
  - cbn [uuid.hex_digits] in H. apply app_inj_tail in H as [Hhigh Hlow].
    apply IH in Hhigh.
    apply hexdigit_inj in Hlow; [|now apply N.mod_lt..].
    rewrite Nat2N.inj_succ, N.pow_succ_r'.
    rewrite !N.Div0.mod_mul_r. now rewrite Hhigh, Hlow.
Qed.

Lemma groups_length (hex : str) : length hex = 32%nat -> length (uuid.groups hex) = 36%nat.
Proof.
  intros H. do 33 (destruct hex as [|? hex]; try discriminate H). reflexivity.
Qed.

Lemma groups_inj (h1 h2 : str) :
  length h1 = 32%nat -> length h2 = 32%nat -> uuid.groups h1 = uuid.groups h2 -> h1 = h2.
Proof.
  intros H1 H2 H.
  do 33 (destruct h1 as [|? h1]; try discriminate H1).
  do 33 (destruct h2 as [|? h2]; try discriminate H2).
  cbv in H. congruence.
Qed.

Lemma to_str_length (x : N) : length (uuid.to_str x) = 36%nat.
Proof. apply groups_length, hex_digits_length. Qed.

Lemma to_str_inj (x y : N) :
  (x < 2 ^ 128)%N -> (y < 2 ^ 128)%N -> uuid.to_str x = uuid.to_str y -> x = y.
Proof.
  intros Hx Hy H. apply groups_inj in H; [|apply hex_digits_length..].
  apply hex_digits_inj in H.
  change (16 ^ N.of_nat 32)%N with (2 ^ 128)%N in H.
  now rewrite !N.mod_small in H.
Qed.

(** Two generated keys are equal exactly when the draws behind them agree
    on their 122 free bits. *)
Lemma uuid4_key_eq_iff (a b : N) :
  uuid.to_str (uuid.UUID_v4 a) = uuid.to_str (uuid.UUID_v4 b) <-> uuid.free_bits a = uuid.free_bits b.
Proof.
  rewrite <- UUID_v4_eq_iff. split; [|now intros ->].
  apply to_str_inj; apply UUID_v4_bound.
Qed.

End uuid_facts.

Lemma string_of_uint_digits (d : Decimal.uint) :
  Forall (fun c => is_digit c = true) (u (NilEmpty.string_of_uint d)).
Proof. induction d; cbn; constructor; (reflexivity || assumption). Qed.

Lemma number_uint_acc (d : Decimal.uint) : forall acc : positive,
  fold_left (fun acc c => (10 * acc + (c - 48))%N) (u (NilEmpty.string_of_uint d))
    (N.pos acc)
  = N.pos (Pos.of_uint_acc d acc).
Proof.
  induction d; intros acc; cbn [NilEmpty.string_of_uint Pos.of_uint_acc];
    [reflexivity | ..];
    (change (u (String ?c ?s)) with (N_of_ascii c :: u s);
     cbn [fold_left N_of_ascii N_of_digits]; rewrite <- IHd; f_equal; cbn; lia).
Qed.

Lemma number_uint (d : Decimal.uint) :
  number (u (NilEmpty.string_of_uint d)) = N.of_uint d.
Proof.
  unfold number, N.of_uint.
  induction d; cbn [NilEmpty.string_of_uint Pos.of_uint]; [reflexivity | ..];
    change (u (String ?c ?s)) with (N_of_ascii c :: u s);
    cbn [fold_left]; first [exact IHd | apply number_uint_acc].
Qed.

Lemma number_digits (n : N) : number (decimal.digits n) = n.
Proof.
  unfold decimal.digits. rewrite <- (DecimalN.Unsigned.of_to n) at 2.
  generalize (N.to_uint n). intros d.
  destruct d; [reflexivity | ..];
    match goal with |- context [N.of_uint ?d] => exact (number_uint d) end.
Qed.

Lemma number_two_digits (m : N) : number (decimal.two_digits m) = m.
Proof.
  unfold number, decimal.two_digits. cbn [fold_left].
  pose proof (N.Div0.div_mod m 10) as H.
  revert H. generalize (m / 10)%N (m mod 10)%N. intros a b H. lia.
Qed.

Lemma digits_are_digits (n : N) :
  decimal.digits n <> [] /\ Forall (fun c => is_digit c = true) (decimal.digits n).
Proof.
  unfold decimal.digits. pose proof (string_of_uint_digits (N.to_uint n)) as H.
  destruct (N.to_uint n); (split; [discriminate | try exact H]).
  repeat constructor.
Qed.

(** The text [format_2f] produces reads as the hundredths it was made of. *)
Lemma format_2f_reads (d : decimal.Decimal) :
  reads_as (decimal.format_2f d) (decimal.sign d) (decimal.rescale2 d).
Proof.
  unfold decimal.format_2f.
  generalize (decimal.rescale2 d). intros c.
  exists (decimal.digits (c / 100)), (48 + c mod 100 / 10)%N, (48 + (c mod 100) mod 10)%N.
  destruct (digits_are_digits (c / 100)) as [Hne Hall].
  assert (Hc : (c mod 100 < 100)%N) by now apply N.mod_lt.
  assert (H1 : (c mod 100 / 10 < 10)%N) by now apply N.Div0.div_lt_upper_bound.
  assert (H2 : ((c mod 100) mod 10 < 10)%N) by now apply N.mod_lt.
  assert (Hdigit : forall x, (x < 10)%N -> is_digit (48 + x)%N = true).
  { intros x Hx. unfold is_digit. apply andb_true_iff. split; apply N.leb_le; lia. }
  split; [reflexivity|]. repeat split; auto.
  rewrite number_digits.
  change [(48 + c mod 100 / 10)%N; (48 + (c mod 100) mod 10)%N]
    with (decimal.two_digits (c mod 100)).
  rewrite number_two_digits. symmetry. apply N.Div0.div_mod.
Qed.

Lemma format_2f_fixed (d : decimal.Decimal) : fixed_2_decimal (decimal.format_2f d).
Proof. eexists. eexists. apply format_2f_reads. Qed.

(** The hundredths [format_2f] prints are the amount at two places. *)
Lemma rescale2_to_hundredths (d : decimal.Decimal) :
  to_hundredths d (decimal.rescale2 d).
Proof.
  unfold to_hundredths, decimal.rescale2.
  destruct (-2 <=? decimal.exponent d); [reflexivity|].
  cbv zeta.
  set (k := (10 ^ Z.to_N (- 2 - decimal.exponent d))%N).
  assert (Hk : k <> 0%N) by (apply N.pow_nonzero; discriminate).
  pose proof (N.Div0.div_mod (decimal.coefficient d) k) as Hx.
  pose proof (N.mod_lt (decimal.coefficient d) k Hk) as Hr.
  set (q := (decimal.coefficient d / k)%N) in *.
  set (r := (decimal.coefficient d mod k)%N) in *.
  set (x := decimal.coefficient d) in *.
  clearbody q r x k.
  destruct (N.ltb_spec (2 * r) k); [|destruct (N.ltb_spec k (2 * r))].
  - repeat split; try lia.
  - repeat split; try lia.
  - destruct (N.even q) eqn:Eq.
    + repeat split; try lia. intros _. exact Eq.
    + repeat split; try lia. intros _.
      rewrite N.add_1_r, N.even_succ, <- N.negb_even, Eq. reflexivity.
Qed.

(** ** What a payment call does *)

Lemma run_create_yookassa_payment RETURN_URL SECRET_KEY SHOP_ID
    order_id amount user_email description w :
  payments.create_yookassa_payment RETURN_URL SECRET_KEY SHOP_ID
    order_id amount user_email description w
  = if not_ SHOP_ID || not_ SECRET_KEY then
      (Raise payments.configuration_error, w)
    else
      let payload := payments.payload RETURN_URL order_id amount user_email description in
      let key := uuid.to_str (uuid.UUID_v4 (os_urandom w (drawn w))) in
      (match gateway w (posted w) payload key with
       | Return payment =>
           Return (dict [
             ("id", Str (yookassa.id payment));
             ("status", Str (yookassa.status payment));
             ("confirmation_url",
                of_optional (c ← yookassa.confirmation payment;
                             yookassa.confirmation_url c))]%string)
       | Raise e => Raise e
       end,
       mkWorld SHOP_ID SECRET_KEY (os_urandom w) (S (drawn w)) (gateway w)
         (posted w ++ [(payload, key)])).
Proof.
  unfold payments.create_yookassa_payment.
  destruct (not_ SHOP_ID || not_ SECRET_KEY); [reflexivity|].
  destruct w as [account_id secret_key urandom n gw sent].
  cbv beta iota zeta delta
    [mbind M_bind mret M_ret payments.configure payments.uuid4
     payments.Payment_create Configuration_account_id Configuration_secret_key
     os_urandom drawn gateway posted].
  match goal with
  | |- context [gw sent ?p ?k] => destruct (gw sent p k)
  end; reflexivity.
Qed.

Lemma posted_after_call RETURN_URL SECRET_KEY SHOP_ID
    order_id amount user_email description w :
  not_ SHOP_ID = false -> not_ SECRET_KEY = false ->
  let w' := snd (payments.create_yookassa_payment RETURN_URL SECRET_KEY SHOP_ID
                   order_id amount user_email description w) in
  posted w' = posted w ++
    [(payments.payload RETURN_URL order_id amount user_email description,
      uuid.to_str (uuid.UUID_v4 (os_urandom w (drawn w))))]
  /\ os_urandom w' = os_urandom w /\ drawn w' = S (drawn w)
  /\ gateway w' = gateway w.
Proof.
  intros Hshop Hsecret. rewrite run_create_yookassa_payment, Hshop, Hsecret.
  cbn. repeat split.
Qed.

Lemma payload_lookups RETURN_URL order_id amount user_email description :
  let payload := payments.payload RETURN_URL order_id amount user_email description in
  let item := [key "receipt"; key "items"; index 0] in
  at_path [key "amount"; key "value"] payload = Some (Str (decimal.format_2f amount))
  /\ at_path [key "amount"; key "currency"] payload = Some (Str (u "RUB"))
  /\ (at_path [key "receipt"; key "items"] payload ≫= len) = Some 1%nat
  /\ at_path (item ++ [key "amount"; key "value"]) payload
     = Some (Str (decimal.format_2f amount))
  /\ at_path (item ++ [key "amount"; key "currency"]) payload = Some (Str (u "RUB"))
  /\ at_path (item ++ [key "description"]) payload = Some (Str (take 128 description))
  /\ at_path [key "description"] payload = Some (Str description).
Proof.
  unfold payments.payload.
  generalize (decimal.format_2f amount) (take 128 description). intros value short.
  repeat split; vm_compute; reflexivity.
Qed.

(** ** The claims about payments *)




(** C7. When the shop id or the secret key is unset or empty the call
    raises the configuration error and the world is as it was: nothing was
    sent to the gateway, nothing drawn, the client library not configured. *)
Theorem missing_credentials_raise_first RETURN_URL SECRET_KEY SHOP_ID
    order_id amount user_email description w :
  SHOP_ID = None \/ SHOP_ID = Some [] \/ SECRET_KEY = None \/ SECRET_KEY = Some [] ->
  payments.create_yookassa_payment RETURN_URL SECRET_KEY SHOP_ID
    order_id amount user_email description w
  = (Raise payments.configuration_error, w).
Proof.
  intros H. rewrite run_create_yookassa_payment.
  destruct H as [-> | [-> | [-> | ->]]]; cbn [not_ orb]; try reflexivity;
    now rewrite orb_true_r.
Qed.

Lemma missing_credentials_raise_first_witness :
  Checkout.pay None Checkout.SECRET_KEY (u "Order 42") (Checkout.world N.of_nat)
  = (Raise payments.configuration_error, Checkout.world N.of_nat)
  /\ Checkout.pay Checkout.SHOP_ID (Some []) (u "Order 42") (Checkout.world N.of_nat)
  = (Raise payments.configuration_error, Checkout.world N.of_nat).
Proof.
  split; apply missing_credentials_raise_first; auto.
Defined.

(** C8. The payload a call sends carries the amount as [format(amount,
    ".2f")], both as its own [amount.value] and as the [amount.value] of
    its only receipt item, each with currency RUB.  This text is a fixed
    two-decimal string: sign, digits, point and two digits, spelling the
    amount at two places (rounded half to even when it has more);
    [Decimal("100.00")] gives "100.00". *)
Theorem payload_amount_two_decimals RETURN_URL SECRET_KEY SHOP_ID
    order_id amount user_email description w :
  not_ SHOP_ID = false -> not_ SECRET_KEY = false ->
  exists payload idempotence_key,
    posted (snd (payments.create_yookassa_payment RETURN_URL SECRET_KEY SHOP_ID
                   order_id amount user_email description w))
    = posted w ++ [(payload, idempotence_key)]
    /\ let item := [key "receipt"; key "items"; index 0] in
       let value := decimal.format_2f amount in
       at_path [key "amount"; key "value"] payload = Some (Str value)
       /\ at_path [key "amount"; key "currency"] payload = Some (Str (u "RUB"))
       /\ (at_path [key "receipt"; key "items"] payload ≫= len) = Some 1%nat
       /\ at_path (item ++ [key "amount"; key "value"]) payload = Some (Str value)
       /\ at_path (item ++ [key "amount"; key "currency"]) payload
          = Some (Str (u "RUB"))
       /\ fixed_2_decimal value
       /\ (exists hundredths,
             reads_as value (decimal.sign amount) hundredths
             /\ to_hundredths amount hundredths)
       /\ (amount = decimal.mk false 10000 (-2) -> value = u "100.00").
Proof.
  intros Hshop Hsecret.
  destruct (posted_after_call RETURN_URL SECRET_KEY SHOP_ID
              order_id amount user_email description w Hshop Hsecret) as (Hp & _).
  destruct (payload_lookups RETURN_URL order_id amount user_email description)
    as (Hv & Hc & Hlen & Hiv & Hic & _).
  eexists. eexists. split; [exact Hp|].
  cbv zeta. repeat split; try assumption.
  - apply format_2f_fixed.
  - exists (decimal.rescale2 amount).
    split; [apply format_2f_reads | apply rescale2_to_hundredths].
  - intros ->. reflexivity.
Qed.

Lemma payload_amount_two_decimals_witness :
  exists payload idempotence_key,
    posted (snd (Checkout.pay Checkout.SHOP_ID Checkout.SECRET_KEY (u "Order 42")
                   (Checkout.world N.of_nat)))
    = [(payload, idempotence_key)]
    /\ at_path [key "amount"; key "value"] payload = Some (Str (u "100.00")).
Proof.
  destruct (payload_amount_two_decimals Checkout.RETURN_URL Checkout.SECRET_KEY
              Checkout.SHOP_ID 42 Checkout.amount (u "a@b.com") (u "Order 42")
              (Checkout.world N.of_nat) eq_refl eq_refl)
    as (payload & k & Hp & Hv & _).
  exists payload, k. split; [exact Hp | exact Hv].
Defined.

(** C9. The receipt item of the payload a call sends describes the order by
    [description[:128]]: the description itself when it has at most 128
    characters, its first 128 characters otherwise.  (The [description] of
    the payment itself is not shortened.) *)
Theorem receipt_description_truncated RETURN_URL SECRET_KEY SHOP_ID
    order_id amount user_email (description : str) w :
  not_ SHOP_ID = false -> not_ SECRET_KEY = false ->
  exists payload idempotence_key short,
    posted (snd (payments.create_yookassa_payment RETURN_URL SECRET_KEY SHOP_ID
                   order_id amount user_email description w))
    = posted w ++ [(payload, idempotence_key)]
    /\ at_path [key "receipt"; key "items"; index 0; key "description"] payload
       = Some (Str short)
    /\ at_path [key "description"] payload = Some (Str description)
    /\ (length short <= 128)%nat
    /\ ((length description <= 128)%nat -> short = description)
    /\ ((128 < length description)%nat ->
        length short = 128%nat /\ exists rest, description = short ++ rest)
    /\ forall i, (i < 128)%nat -> short !! i = description !! i.
Proof.
  intros Hshop Hsecret.
  destruct (posted_after_call RETURN_URL SECRET_KEY SHOP_ID
              order_id amount user_email description w Hshop Hsecret) as (Hp & _).
  destruct (payload_lookups RETURN_URL order_id amount user_email description)
    as (_ & _ & _ & _ & _ & Hshort & Hfull).
  exists (payments.payload RETURN_URL order_id amount user_email description).
  eexists. exists (take 128 description).
  split; [exact Hp|]. split; [exact Hshort|]. split; [exact Hfull|].
  split; [|split; [|split]].
  - rewrite length_take. lia.
  - intros Hlen. now apply take_ge.
  - intros Hlen. split; [rewrite length_take; lia|].
    exists (drop 128 description). symmetry. apply take_drop.
  - intros i Hi. now apply lookup_take_lt.
Qed.

Lemma receipt_description_truncated_witness :
  exists payload idempotence_key,
    posted (snd (Checkout.pay Checkout.SHOP_ID Checkout.SECRET_KEY
                   (replicate 130 120%N) (Checkout.world N.of_nat)))
    = [(payload, idempotence_key)]
    /\ at_path [key "receipt"; key "items"; index 0; key "description"] payload
       = Some (Str (replicate 128 120%N)).
Proof.
  destruct (receipt_description_truncated Checkout.RETURN_URL Checkout.SECRET_KEY
              Checkout.SHOP_ID 42 Checkout.amount (u "a@b.com") (replicate 130 120%N)
              (Checkout.world N.of_nat) eq_refl eq_refl)
    as (payload & k & short & Hp & Hshort & _ & _ & _ & Hlong & _).
  exists payload, k. split; [exact Hp|].
  rewrite Hshort. do 2 f_equal.
  destruct Hlong as (Hlen & rest & Hrest); [vm_compute; lia|].
  apply (f_equal (take 128)) in Hrest.
  rewrite take_app_length' in Hrest by (symmetry; exact Hlen).
  rewrite <- Hrest. vm_compute. reflexivity.
Defined.

(** * Further properties of the handlers *)

(** ** More on lists of rows *)

Lemma unique_id_In (l : list ReviewModel.Review) r1 r2 :
  List.NoDup (map ReviewModel.id l) -> In r1 l -> In r2 l ->
  ReviewModel.id r1 = ReviewModel.id r2 -> r1 = r2.
Proof.
  induction l as [|a l IH]; intros Hnd H1 H2 Heq; [destruct H1|].
  cbn [map] in Hnd. apply List.NoDup_cons_iff in Hnd as [Hnotin Hnd].
  destruct H1 as [<-|H1], H2 as [<-|H2]; auto.
  - exfalso. apply Hnotin. rewrite Heq. now apply in_map.
  - exfalso. apply Hnotin. rewrite <- Heq. now apply in_map.
Qed.

Lemma map_soft_delete_other pk (l : list ReviewModel.Review) :
  (forall r, In r l -> ReviewModel.id r <> pk) -> map (soft_delete pk) l = l.
Proof.
  induction l as [|a l IH]; intros H; [reflexivity|].
  cbn [map]. rewrite IH by (intros r Hr; apply H; now right).
  unfold soft_delete. destruct (Z.eqb_spec (ReviewModel.id a) pk) as [E|E]; [|reflexivity].
  exfalso. apply (H a); [now left | exact E].
Qed.

Lemma filter_other_id pk (l : list ReviewModel.Review) :
  (forall r, In r l -> ReviewModel.id r <> pk) ->
  List.filter (fun r => negb (ReviewModel.id r =? pk)) l = l.
Proof.
  induction l as [|a l IH]; intros H; [reflexivity|].
  cbn [List.filter]. rewrite IH by (intros r Hr; apply H; now right).
  destruct (Z.eqb_spec (ReviewModel.id a) pk) as [E|E]; [|reflexivity].
  exfalso. apply (H a); [now left | exact E].
Qed.

Lemma map_id_soft_delete pk (l : list ReviewModel.Review) :
  map ReviewModel.id (map (soft_delete pk) l) = map ReviewModel.id l.
Proof.
  rewrite map_map. apply map_ext. intros r. unfold soft_delete.
  now destruct (ReviewModel.id r =? pk).
Qed.

Lemma rate_other pk q p : ProductModel.id p <> pk -> rate pk q p = p.
Proof.
  intros H. unfold rate. now destruct (Z.eqb_spec (ProductModel.id p) pk).
Qed.

Lemma rate_keeps pk q p :
  ProductModel.id (rate pk q p) = ProductModel.id p
  /\ ProductModel.is_active (rate pk q p) = ProductModel.is_active p
  /\ ProductModel.columns (rate pk q p) = ProductModel.columns p.
Proof. unfold rate. now destruct (ProductModel.id p =? pk). Qed.

(** ** What a step does to the two tables *)

Lemma step_database db e db' :
  step db e db' ->
  let pid := subject e in
  products db' = map (rate pid (or_zero (avg (active_grades pid db')))) (products db)
  /\ (exists p, In p (products db) /\ ProductModel.id p = pid)
  /\ match e with
     | Created r =>
         reviews db' = reviews db ++ [r]
         /\ ReviewModel.is_active r = true
         /\ (forall r0, In r0 (reviews db) -> ReviewModel.id r0 <> ReviewModel.id r)
     | SoftDeleted review =>
         reviews db' = map (soft_delete (ReviewModel.id review)) (reviews db)
         /\ In review (reviews db)
         /\ ReviewModel.is_active review = true
     end.
Proof.
  intros Hstep.
  destruct Hstep as [clock comment user r db' H | clock review_id user review msg db' H Hfound].
  - pose proof H as Hrun. rewrite run_create_review in Hrun. cbv zeta in Hrun.
    destruct (first _) as [found|]; [|discriminate].
    destruct (existsb _ _) eqn:Efresh; [discriminate|]. clear Hrun found.
    apply create_review_success in H as (Hr & (p & Hp & Hpid & _) & ->).
    assert (Hsub : subject (Created r) = schemas.product_id comment) by now rewrite Hr.
    cbv zeta. rewrite Hsub. cbn [products reviews].
    split; [reflexivity|]. split; [eauto|].
    split; [reflexivity|]. split; [now rewrite Hr|].
    intros r0 Hr0 Heq.
    assert (existsb (fun r => ReviewModel.id r =? reviews_id_seq db) (reviews db) = true).
    { apply existsb_exists. exists r0. split; [exact Hr0|].
      apply Z.eqb_eq. rewrite Heq, Hr. reflexivity. }
    congruence.
  - apply delete_review_success in H as (review' & Hfound' & _ & (p & Hp & Hpid) & ->).
    assert (review' = review) as -> by congruence.
    destruct (find_active_review_Some _ _ _ Hfound) as (Hin & Hid & Hact).
    cbv zeta. cbn [subject products reviews]. rewrite Hid.
    split; [reflexivity|]. split; [eauto|]. now repeat split.
Qed.

Lemma step_unique_ids db e db' : step db e db' -> unique_ids db -> unique_ids db'.
Proof.
  intros Hstep Hnd. unfold unique_ids in *.
  destruct (step_database _ _ _ Hstep) as (_ & _ & He).
  destruct e as [r|review].
  - destruct He as (-> & _ & Hfresh). rewrite map_app. cbn [map].
    apply List.NoDup_app; [exact Hnd | repeat constructor; intros [] |].
    intros x Hx Hx'. apply in_map_iff in Hx as (r0 & <- & Hr0).
    destruct Hx' as [Heq|[]]. now apply (Hfresh r0 Hr0).
  - destruct He as (-> & _). now rewrite map_id_soft_delete.
Qed.

(** The active reviews of the other products are left alone. *)
Lemma step_other_products db e db' pid' :
  step db e db' -> unique_ids db -> pid' <> subject e ->
  active_reviews pid' db' = active_reviews pid' db.
Proof.
  intros Hstep Hnd Hne.
  destruct (step_database _ _ _ Hstep) as (_ & _ & He).
  unfold active_reviews. destruct e as [r|review]; cbn [subject] in Hne.
  - destruct He as (-> & _). rewrite List.filter_app. cbn [List.filter].
    unfold active_of_product at 2.
    destruct (Z.eqb_spec (ReviewModel.product_id r) pid') as [E|E]; [congruence|].
    cbn [andb]. apply app_nil_r.
  - destruct He as (-> & Hin & _). rewrite filter_active_soft_delete.
    apply filter_other_id. intros r Hr Heq.
    apply filter_In in Hr as [Hr Hact].
    assert (r = review) as -> by now apply (unique_id_In (reviews db)).
    unfold active_of_product in Hact. apply andb_true_iff in Hact as [Hpid _].
    apply Z.eqb_eq in Hpid. congruence.
Qed.

Lemma filter_none {A} (f : A -> bool) (l : list A) :
  (forall x, In x l -> f x = false) -> List.filter f l = [].
Proof.
  induction l as [|a l IH]; intros H; [reflexivity|].
  cbn [List.filter]. rewrite (H a (or_introl eq_refl)).
  apply IH. intros x Hx. apply H. now right.
Qed.

Lemma map_rate_rate pk q1 q2 (l : list ProductModel.Product) :
  map (rate pk q2) (map (rate pk q1) l) = map (rate pk q2) l.
Proof.
  rewrite map_map. apply map_ext. intros p. unfold rate.
  destruct (ProductModel.id p =? pk) eqn:E; cbn [ProductModel.set_rating ProductModel.id];
    rewrite E; reflexivity.
Qed.

(** ** Creating, listing and deleting again *)

(** X1. A created review is attributed to the caller and takes product,
    comment and grade from the request body; it is active, stamped with the
    time of the request, stored beside the rows that were there under an id
    none of them has, and from then on the global listing and the listing
    of its product answer with what they held before and this review. *)
Theorem create_review_persists clock comment user db r db' :
  run_request clock (routers.create_review comment user) db = (Return r, db') ->
  let pid := schemas.product_id comment in
  (ReviewModel.user_id r = UserModel.id user
   /\ ReviewModel.product_id r = pid
   /\ ReviewModel.comment r = schemas.comment comment
   /\ ReviewModel.grade r = schemas.grade comment
   /\ ReviewModel.comment_date r = clock
   /\ ReviewModel.is_active r = true)
  /\ (forall r0, In r0 (reviews db) -> ReviewModel.id r0 <> ReviewModel.id r)
  /\ reviews db' = reviews db ++ [r]
  /\ (forall clock', exists l,
        run_request clock' routers.get_all_reviews db' = (Return l, db')
        /\ Permutation l (r :: List.filter ReviewModel.is_active (reviews db)))
  /\ (forall clock', exists l,
        run_request clock' (routers.get_all_reviews_of_product pid) db' = (Return l, db')
        /\ Permutation l (r :: active_reviews pid db)).
Proof.
  intros Hrun pid.
  assert (Hstep : step db (Created r) db') by (eapply step_create; exact Hrun).
  destruct (step_database _ _ _ Hstep) as (Hproducts & _ & Hrows & Hactive & Hfresh).
  destruct (step_rating _ _ _ Hstep) as (_ & _ & Hlisted).
  apply create_review_success in Hrun as (Hr & (p & Hp & Hpid & Hpact) & _).
  fold pid in Hr, Hpid.
  assert (Hsub : subject (Created r) = pid) by (rewrite Hr; reflexivity).
  rewrite Hsub in Hproducts, Hlisted.
  split; [rewrite Hr; repeat split|].
  split; [exact Hfresh|]. split; [exact Hrows|]. split.
  - intros clock'. eexists. split; [apply run_get_all_reviews|].
    rewrite Hrows, List.filter_app. cbn [List.filter]. rewrite Hactive.
    symmetry. apply Permutation_cons_append.
  - intros clock'. rewrite run_get_all_reviews_of_product, Hlisted.
    set (q := or_zero (avg (active_grades pid db'))) in *.
    destruct (first_filter_Some
                (fun p => (ProductModel.id p =? pid) && ProductModel.is_active p)
                (products db') (rate pid q p)) as (p' & ->).
    + rewrite Hproducts. now apply in_map.
    + destruct (rate_keeps pid q p) as (-> & -> & _).
      rewrite Hpact, andb_true_r. now apply Z.eqb_eq.
    + eexists. split; [reflexivity|]. symmetry. apply Permutation_cons_append.
Qed.

Lemma create_review_persists_witness :
  exists l,
    run_request 0 (routers.get_all_reviews_of_product 7) Scenario.db2
    = (Return l, Scenario.db2)
    /\ Permutation l [Scenario.review2; Scenario.review1].
Proof.
  assert (Hrun : run_request 101 (routers.create_review (schemas.mk 7 None 2) Scenario.bob)
                   Scenario.db1 = (Return Scenario.review2, Scenario.db2))
    by (vm_compute; reflexivity).
  destruct (create_review_persists _ _ _ _ _ _ Hrun) as (_ & _ & _ & _ & Hlist).
  exact (Hlist 0).
Defined.

(** X2. A review can be deleted once: after a successful [delete_review]
    the same request, by whomever, raises the 404 error and changes
    nothing. *)
Theorem delete_review_only_once clock review_id user db msg db' :
  run_request clock (routers.delete_review review_id user) db = (Return msg, db') ->
  forall clock' user',
    run_request clock' (routers.delete_review review_id user') db'
    = (Raise (HTTPException 404 "Review not found or inactive"), db').
Proof.
  intros Hrun clock' user'.
  apply delete_review_success in Hrun as (review & _ & _ & _ & ->).
  rewrite run_delete_review. cbn [reviews].
  rewrite first_filter_None; [reflexivity|].
  intros r Hr. apply in_map_iff in Hr as (r0 & <- & _).
  unfold soft_delete. destruct (ReviewModel.id r0 =? review_id) eqn:E.
  - cbn [ReviewModel.set_is_active ReviewModel.is_active]. apply andb_false_r.
  - now rewrite E.
Qed.

Lemma delete_review_only_once_witness :
  run_request 200 (routers.delete_review 2 Scenario.root) Scenario.db3
  = (Raise (HTTPException 404 "Review not found or inactive"), Scenario.db3).
Proof.
  assert (Hrun : run_request 102 (routers.delete_review 2 Scenario.bob) Scenario.db2
                 = (Return Scenario.deleted_message, Scenario.db3))
    by (vm_compute; reflexivity).
  exact (delete_review_only_once _ _ _ _ _ _ Hrun 200 Scenario.root).
Defined.

(** X3. Deleting a review right after creating it, by its author, succeeds
    and undoes it for every reader: the row stays, inactive, after the old
    rows; each product has the active reviews it had before the two
    requests; and the product of the review is rated by the aggregate of
    those. *)
Theorem create_then_delete_review clock comment user db r db' clock' :
  run_request clock (routers.create_review comment user) db = (Return r, db') ->
  let pid := schemas.product_id comment in
  exists db'',
    run_request clock' (routers.delete_review (ReviewModel.id r) user) db'
    = (Return (dict [("Message"%string, Str (u "Review deleted"))]), db'')
    /\ reviews db'' = reviews db ++ [ReviewModel.set_is_active false r]
    /\ (forall pid', active_reviews pid' db'' = active_reviews pid' db)
    /\ products db''
       = map (rate pid (or_zero (avg (active_grades pid db)))) (products db).
Proof.
  intros Hrun pid.
  assert (Hstep : step db (Created r) db') by (eapply step_create; exact Hrun).
  destruct (step_database _ _ _ Hstep) as (Hproducts & (p & Hp & Hpid) & Hrows & Hactive & Hfresh).
  apply create_review_success in Hrun as (Hr & _ & _). fold pid in Hr.
  assert (Hsub : ReviewModel.product_id r = pid) by (rewrite Hr; reflexivity).
  cbn [subject] in Hproducts, Hpid. rewrite Hsub in Hproducts, Hpid.
  assert (Hfound : find_active_review (ReviewModel.id r) db' = Some r).
  { unfold find_active_review. rewrite Hrows, List.filter_app, filter_none.
    - cbn [app List.filter]. now rewrite Z.eqb_refl, Hactive.
    - intros r0 Hr0. destruct (Z.eqb_spec (ReviewModel.id r0) (ReviewModel.id r)) as [E|E];
        [exfalso; now apply (Hfresh r0 Hr0) | reflexivity]. }
  destruct (delete_review_succeeds clock' (ReviewModel.id r) user db' r Hfound)
    as (db'' & Hdel).
  { left. rewrite Hr. reflexivity. }
  { exists (rate pid (or_zero (avg (active_grades pid db'))) p). split.
    - rewrite Hproducts. now apply in_map.
    - rewrite Hsub. destruct (rate_keeps pid (or_zero (avg (active_grades pid db'))) p)
        as (-> & _). exact Hpid. }
  exists db''. split; [exact Hdel|].
  apply delete_review_success in Hdel as (review & Hfound' & _ & _ & Hdb).
  assert (review = r) as -> by congruence.
  cbv zeta in Hdb. rewrite Hsub, Hrows, Hproducts in Hdb.
  rewrite map_app, (map_soft_delete_other _ _ Hfresh) in Hdb.
  cbn [map] in Hdb. unfold soft_delete in Hdb. rewrite Z.eqb_refl in Hdb.
  rewrite map_rate_rate in Hdb.
  assert (Hact : forall pid',
            List.filter (active_of_product pid')
              (reviews db ++ [ReviewModel.set_is_active false r])
            = active_reviews pid' db).
  { intros pid'. rewrite List.filter_app. cbn [List.filter].
    unfold active_of_product at 2.
    cbn [ReviewModel.set_is_active ReviewModel.is_active].
    rewrite andb_false_r. apply app_nil_r. }
  subst db''. cbn [reviews products].
  split; [reflexivity|]. split; [exact Hact|].
  unfold active_grades at 1, active_reviews at 1. cbn [reviews].
  now rewrite Hact.
Qed.

Lemma create_then_delete_review_witness :
  exists db'',
    run_request 102 (routers.delete_review 2 Scenario.bob) Scenario.db2
    = (Return Scenario.deleted_message, db'')
    /\ active_reviews 7 db'' = [Scenario.review1].
Proof.
  assert (Hrun : run_request 101 (routers.create_review (schemas.mk 7 None 2) Scenario.bob)
                   Scenario.db1 = (Return Scenario.review2, Scenario.db2))
    by (vm_compute; reflexivity).
  destruct (create_then_delete_review _ _ _ _ _ _ 102 Hrun) as (db'' & Hdel & _ & Hact & _).
  exists db''. split; [exact Hdel | exact (Hact 7)].
Defined.

(** X4. Who can delete: [delete_review] answers with its confirmation
    exactly when the id is that of an active review, the caller is its
    author or an administrator, and the row of its product is there. *)
Theorem delete_review_succeeds_iff clock review_id user db :
  ((exists msg db',
      run_request clock (routers.delete_review review_id user) db = (Return msg, db'))
   <-> (exists review,
          find_active_review review_id db = Some review
          /\ (ReviewModel.user_id review = UserModel.id user
              \/ UserModel.role user = u "admin")
          /\ exists p, In p (products db)
                       /\ ProductModel.id p = ReviewModel.product_id review))
  /\ (forall msg db',
        run_request clock (routers.delete_review review_id user) db = (Return msg, db') ->
        msg = dict [("Message"%string, Str (u "Review deleted"))]).
Proof.
  split; [split|].
  - intros (msg & db' & Hrun).
    apply delete_review_success in Hrun as (review & Hfound & Hauth & Hproduct & _).
    exists review. auto.
  - intros (review & Hfound & Hauth & Hproduct).
    destruct (delete_review_succeeds clock review_id user db review Hfound Hauth Hproduct)
      as (db' & Hrun).
    eauto.
  - intros msg db' Hrun. pose proof Hrun as Hrun'.
    apply delete_review_success in Hrun' as (review & Hfound & Hauth & Hproduct & _).
    destruct (delete_review_succeeds clock review_id user db review Hfound Hauth Hproduct)
      as (db'' & Hrun'').
    congruence.
Qed.

Lemma delete_review_succeeds_iff_witness :
  exists msg db',
    run_request 103 (routers.delete_review 1 Scenario.root) Scenario.db3
    = (Return msg, db').
Proof.
  apply (proj1 (delete_review_succeeds_iff 103 1 Scenario.root Scenario.db3)).
  exists Scenario.review1. split; [vm_compute; reflexivity|].
  split; [right; reflexivity|].
  exists (Scenario.P 4). split; [left|]; reflexivity.
Defined.

Lemma filter_andb {A} (f g : A -> bool) (l : list A) :
  List.filter (fun x => f x && g x) l = List.filter f (List.filter g l).
Proof.
  induction l as [|a l IH]; [reflexivity|].
  cbn [List.filter]. rewrite IH.
  destruct (g a); cbn [List.filter]; [|now rewrite andb_false_r].
  rewrite andb_true_r. reflexivity.
Qed.

(** X5. The listing of a product, when it answers, is the global listing
    cut down to the reviews of that product: the stored reviews of the
    product that are active, nothing else.  It answers only for an active
    product, and it changes nothing. *)
Theorem product_listing_is_the_global_one_cut_down clock product_id db l db' :
  run_request clock (routers.get_all_reviews_of_product product_id) db = (Return l, db') ->
  db' = db
  /\ (exists p, In p (products db) /\ ProductModel.id p = product_id
                /\ ProductModel.is_active p = true)
  /\ (forall r, In r l <->
                In r (reviews db) /\ ReviewModel.product_id r = product_id
                /\ ReviewModel.is_active r = true)
  /\ exists l_all,
       run_request clock routers.get_all_reviews db = (Return l_all, db)
       /\ Permutation l
            (List.filter (fun r => ReviewModel.product_id r =? product_id) l_all).
Proof.
  intros Hrun. rewrite run_get_all_reviews_of_product in Hrun.
  destruct (first _) as [p|] eqn:Ep; [|discriminate].
  injection Hrun as <- <-.
  apply first_In, filter_In in Ep as [Hp Hact].
  apply andb_true_iff in Hact as [Hid Hact]. apply Z.eqb_eq in Hid.
  split; [reflexivity|]. split; [eauto|]. split.
  - intros r. unfold active_reviews, active_of_product.
    rewrite filter_In, andb_true_iff, Z.eqb_eq. reflexivity.
  - eexists. split; [apply run_get_all_reviews|].
    unfold active_reviews, active_of_product. now rewrite filter_andb.
Qed.

Lemma product_listing_is_the_global_one_cut_down_witness :
  exists l_all,
    run_request 0 routers.get_all_reviews Scenario.db3 = (Return l_all, Scenario.db3)
    /\ Permutation [Scenario.review1]
         (List.filter (fun r => ReviewModel.product_id r =? 7) l_all).
Proof.
  assert (Hrun : run_request 0 (routers.get_all_reviews_of_product 7) Scenario.db3
                 = (Return [Scenario.review1], Scenario.db3))
    by (vm_compute; reflexivity).
  destruct (product_listing_is_the_global_one_cut_down _ _ _ _ _ Hrun)
    as (_ & _ & _ & Hall).
  exact Hall.
Defined.

(** ** Requests that do not go through *)

Lemma create_review_raise clock comment user db e db' :
  run_request clock (routers.create_review comment user) db = (Raise e, db') ->
  reviews db' = reviews db /\ products db' = products db.
Proof.
  intros Hrun. rewrite run_create_review in Hrun. cbv zeta in Hrun.
  destruct (first _) as [found|]; [|injection Hrun as _ <-; now split].
  destruct (existsb _ _) eqn:Efresh; [injection Hrun as _ <-; now split|].
  destruct (find _ (products db)); [|injection Hrun as _ <-; now split].
  rewrite find_app_split in Hrun.
  destruct (find _ (reviews db)); [discriminate|].
  cbn [find ReviewModel.id] in Hrun. rewrite Z.eqb_refl in Hrun. discriminate.
Qed.

Lemma delete_review_raise clock review_id user db e db' :
  run_request clock (routers.delete_review review_id user) db = (Raise e, db') ->
  db' = db.
Proof.
  intros Hrun. rewrite run_delete_review in Hrun.
  destruct (first _) as [review|] eqn:Efound; [|now injection Hrun as _ <-].
  destruct (negb _ && negb _); [now injection Hrun as _ <-|].
  cbv zeta in Hrun.
  destruct (find _ (products db)); [|now injection Hrun as _ <-].
  apply first_In, filter_In in Efound as [Hin _].
  destruct (find_exists (fun r => ReviewModel.id r =? ReviewModel.id review)
              (map (soft_delete (ReviewModel.id review)) (reviews db))
              (soft_delete (ReviewModel.id review) review)) as (r' & Hr').
  - now apply in_map.
  - unfold soft_delete. rewrite Z.eqb_refl. cbn. apply Z.eqb_refl.
  - rewrite Hr' in Hrun. discriminate.
Qed.

(** X6. All or nothing: a [create_review] or [delete_review] that raises,
    whatever it raises, has written no review and no rating; and the two
    listings never write, whatever they answer. *)
Theorem failed_requests_write_nothing clock db db' :
  (forall comment user e,
     run_request clock (routers.create_review comment user) db = (Raise e, db') ->
     reviews db' = reviews db /\ products db' = products db)
  /\ (forall review_id user e,
        run_request clock (routers.delete_review review_id user) db = (Raise e, db') ->
        db' = db)
  /\ (forall res,
        run_request clock routers.get_all_reviews db = (res, db') -> db' = db)
  /\ (forall product_id res,
        run_request clock (routers.get_all_reviews_of_product product_id) db = (res, db') ->
        db' = db).
Proof.
  split; [|split; [|split]].
  - intros comment user e. apply create_review_raise.
  - intros review_id user e. apply delete_review_raise.
  - intros res Hrun. rewrite run_get_all_reviews in Hrun. now injection Hrun as _ <-.
  - intros product_id res Hrun. rewrite run_get_all_reviews_of_product in Hrun.
    destruct (first _); now injection Hrun as _ <-.
Qed.

Lemma failed_requests_write_nothing_witness :
  snd (run_request 110 (routers.delete_review 2 Scenario.alice) Scenario.db2)
  = Scenario.db2.
Proof.
  destruct (failed_requests_write_nothing 110 Scenario.db2
              (snd (run_request 110 (routers.delete_review 2 Scenario.alice) Scenario.db2)))
    as (_ & Hdelete & _).
  apply (Hdelete 2 Scenario.alice (HTTPException 403 "User is not admin or author")).
  vm_compute. reflexivity.
Defined.

(** ** What a mutation leaves alone *)

Lemma Forall2_map_of {A} (f : A -> A) (R : A -> A -> Prop) (l : list A) :
  (forall x, In x l -> R x (f x)) -> Forall2 R l (map f l).
Proof.
  induction l as [|a l IH]; intros H; cbn [map]; constructor.
  - apply H. now left.
  - apply IH. intros x Hx. apply H. now right.
Qed.

(** X7. A successful [create_review] or [delete_review] touches one
    product: the products table keeps its rows in place, each with its id,
    active flag and other columns, and rows of another product are kept
    whole, rating included; every other product keeps its active reviews,
    and stored reviews of other products stay as they are. *)
Theorem step_touches_one_product db e db' :
  step db e db' -> unique_ids db ->
  let pid := subject e in
  Forall2 (fun p p' =>
             ProductModel.id p' = ProductModel.id p
             /\ ProductModel.is_active p' = ProductModel.is_active p
             /\ ProductModel.columns p' = ProductModel.columns p
             /\ (ProductModel.id p <> pid -> p' = p))
    (products db) (products db')
  /\ (forall pid', pid' <> pid -> active_reviews pid' db' = active_reviews pid' db)
  /\ (forall r, In r (reviews db) -> ReviewModel.product_id r <> pid ->
        In r (reviews db')).
Proof.
  intros Hstep Hnd pid.
  destruct (step_database _ _ _ Hstep) as (Hproducts & _ & He). fold pid in Hproducts.
  split; [|split].
  - rewrite Hproducts. apply Forall2_map_of. intros p _.
    destruct (rate_keeps pid (or_zero (avg (active_grades pid db'))) p) as (-> & -> & ->).
    repeat split. apply rate_other.
  - intros pid' Hne. now apply (step_other_products db e).
  - intros r Hr Hne. destruct e as [r1|review]; cbn [subject] in pid.
    + destruct He as (-> & _). apply in_or_app. now left.
    + destruct He as (-> & Hin & _). apply in_map_iff. exists r. split; [|exact Hr].
      unfold soft_delete.
      destruct (Z.eqb_spec (ReviewModel.id r) (ReviewModel.id review)) as [E|E];
        [|reflexivity].
      assert (r = review) as -> by now apply (unique_id_In (reviews db)).
      now contradiction Hne.
Qed.

Lemma step_touches_one_product_witness :
  active_reviews 8 Scenario.db5 = [Scenario.orphan]
  /\ active_reviews 8
       (snd (run_request 7 (routers.create_review (schemas.mk 7 None 3) Scenario.bob)
               Scenario.db5))
     = [Scenario.orphan].
Proof.
  split; [reflexivity|].
  assert (Hstep : step Scenario.db5
            (Created (ReviewModel.mk 6 11 7 None 7 3 true))
            (snd (run_request 7 (routers.create_review (schemas.mk 7 None 3) Scenario.bob)
                    Scenario.db5))).
  { apply (step_create _ 7 (schemas.mk 7 None 3) Scenario.bob). vm_compute. reflexivity. }
  assert (Hnd : unique_ids Scenario.db5).
  { unfold unique_ids. cbn. repeat constructor. intros []. }
  destruct (step_touches_one_product _ _ _ Hstep Hnd) as (_ & Hother & _).
  rewrite (Hother 8); [reflexivity | discriminate].
Defined.

(** ** Ratings under any traffic *)

Lemma request_outcome db db' :
  request db db' ->
  (reviews db' = reviews db /\ products db' = products db)
  \/ exists e, step db e db'.
Proof.
  intros [clock | clock product_id | clock comment user | clock review_id user].
  - left. rewrite run_get_all_reviews. now split.
  - left. rewrite run_get_all_reviews_of_product. destruct (first _); now split.
  - destruct (run_request clock (routers.create_review comment user) db)
      as [[r|e] db1] eqn:Hrun; cbn [snd].
    + right. exists (Created r). eapply step_create. exact Hrun.
    + left. eapply create_review_raise. exact Hrun.
  - destruct (run_request clock (routers.delete_review review_id user) db)
      as [[msg|e] db1] eqn:Hrun; cbn [snd].
    + right. pose proof Hrun as Hrun'.
      apply delete_review_success in Hrun' as (review & Hfound & _).
      exists (SoftDeleted review). eapply step_delete; eassumption.
    + left. apply delete_review_raise in Hrun. subst db1. now split.
Qed.

Lemma step_rated db e db' : step db e db' -> unique_ids db -> rated db -> rated db'.
Proof.
  intros Hstep Hnd Hrated p' Hp'.
  destruct (step_database _ _ _ Hstep) as (Hproducts & _ & _).
  rewrite Hproducts in Hp'. apply in_map_iff in Hp' as (p & <- & Hp).
  set (q := or_zero (avg (active_grades (subject e) db'))).
  destruct (rate_keeps (subject e) q p) as (Hid & _). rewrite Hid.
  destruct (Z.eq_dec (ProductModel.id p) (subject e)) as [E|E].
  - unfold rate. rewrite E, Z.eqb_refl. reflexivity.
  - rewrite (rate_other _ _ _ E). unfold active_grades.
    rewrite (step_other_products db e db' _ Hstep Hnd E). now apply Hrated.
Qed.

Lemma request_invariant db db' :
  request db db' -> unique_ids db /\ rated db -> unique_ids db' /\ rated db'.
Proof.
  intros Hreq [Hnd Hrated].
  destruct (request_outcome _ _ Hreq) as [[Hrows Hproducts] | [e Hstep]].
  - split.
    + unfold unique_ids. now rewrite Hrows.
    + intros p Hp. rewrite Hproducts in Hp.
      unfold active_grades, active_reviews. rewrite Hrows. now apply Hrated.
  - split; [now apply (step_unique_ids db e) | now apply (step_rated db e)].
Qed.

(** X8. Ratings stay true under any traffic.  When the review ids are
    distinct and every product carries the aggregate of its active reviews
    (0 when it has none), both still hold after any number of requests to
    the four endpoints, in any order, whether they succeed or fail. *)
Theorem requests_keep_every_rating db db' :
  rtc request db db' ->
  unique_ids db -> rated db ->
  unique_ids db' /\ rated db'.
Proof.
  intros Hrtc Hnd Hrated.
  induction Hrtc as [db | db db1 db' Hreq _ IH]; [now split|].
  destruct (request_invariant _ _ Hreq (conj Hnd Hrated)) as [Hnd1 Hrated1].
  now apply IH.
Qed.

Lemma requests_keep_every_rating_witness :
  unique_ids Scenario.db3 /\ rated Scenario.db3.
Proof.
  assert (R1 : request Scenario.db0 Scenario.db1).
  { replace Scenario.db1
      with (snd (run_request 100 (routers.create_review (schemas.mk 7 None 4) Scenario.alice)
                   Scenario.db0)) by (vm_compute; reflexivity).
    constructor. }
  assert (R2 : request Scenario.db1 Scenario.db2).
  { replace Scenario.db2
      with (snd (run_request 101 (routers.create_review (schemas.mk 7 None 2) Scenario.bob)
                   Scenario.db1)) by (vm_compute; reflexivity).
    constructor. }
  assert (R3 : request Scenario.db2 Scenario.db2).
  { replace Scenario.db2
      with (snd (run_request 110 (routers.delete_review 2 Scenario.alice) Scenario.db2))
      at 2 by (vm_compute; reflexivity).
    constructor. }
  assert (R4 : request Scenario.db2 Scenario.db3).
  { replace Scenario.db3
      with (snd (run_request 102 (routers.delete_review 2 Scenario.bob) Scenario.db2))
      by (vm_compute; reflexivity).
    constructor. }
  apply (requests_keep_every_rating Scenario.db0).
  - exact (rtc_l _ _ _ _ R1 (rtc_l _ _ _ _ R2 (rtc_l _ _ _ _ R3 (rtc_once _ _ R4)))).
  - unfold unique_ids. cbn. constructor.
  - intros p Hp. cbn in Hp. destruct Hp as [<- | [<- | []]]; vm_compute; reflexivity.
Defined.

(** ** The range of a rating *)

Lemma sum_grades_bounds (gs : list Z) (lo hi : Z) :
  (forall g, In g gs -> lo <= g <= hi) ->
  lo * Z.of_nat (length gs) <= sum_grades gs <= hi * Z.of_nat (length gs).
Proof.
  induction gs as [|g gs IH]; intros H; [cbn; lia|].
  assert (Hg : lo <= g <= hi) by (apply H; now left).
  assert (IH' : lo * Z.of_nat (length gs) <= sum_grades gs <= hi * Z.of_nat (length gs)).
  { apply IH. intros x Hx. apply H. now right. }
  change (sum_grades (g :: gs)) with (g + sum_grades gs).
  cbn [length]. rewrite Nat2Z.inj_succ. lia.
Qed.

Lemma aggregate_bounds (gs : list Z) (lo hi : Z) :
  gs <> [] -> (forall g, In g gs -> lo <= g <= hi) ->
  (inject_Z lo <= or_zero (avg gs) <= inject_Z hi)%Q.
Proof.
  intros Hne H. pose proof (sum_grades_bounds gs lo hi H) as Hsum.
  destruct gs as [|g gs]; [done|]. clear Hne H.
  set (l := g :: gs) in *.
  assert (Hn : Z.pos (Pos.of_nat (length l)) = Z.of_nat (length l))
    by (subst l; cbn [length]; lia).
  change (avg l) with (Some (Qmake (sum_grades l) (Pos.of_nat (length l)))).
  rewrite or_zero_Some. unfold Qle. cbn [Qnum Qden inject_Z]. rewrite Hn. lia.
Qed.

(** X9. A rating written by [create_review] or [delete_review] lies within
    the grades it aggregates: between the lowest and the highest grade of
    the active reviews of the product, when there is one.  So with grades
    above 0, a rating of 0 is written only for a product without active
    reviews. *)
Theorem rating_within_the_grades db e db' (lo hi : Z) :
  step db e db' ->
  let pid := subject e in
  active_grades pid db' <> [] ->
  (forall g, In g (active_grades pid db') -> lo <= g <= hi) ->
  forall p, In p (products db') -> ProductModel.id p = pid ->
    (inject_Z lo <= ProductModel.rating p <= inject_Z hi)%Q
    /\ (0 < lo -> ~ (ProductModel.rating p == 0)%Q).
Proof.
  intros Hstep pid Hne Hgrades p Hp Hid.
  destruct (step_rating _ _ _ Hstep) as (_ & Hrating & _). fold pid in Hrating.
  rewrite (Hrating p Hp Hid).
  pose proof (aggregate_bounds _ lo hi Hne Hgrades) as [Hlo Hhi].
  split; [now split|].
  intros Hpos Hzero. rewrite Hzero in Hlo.
  unfold Qle in Hlo. cbn in Hlo. lia.
Qed.

Lemma rating_within_the_grades_witness :
  (inject_Z 2 <= ProductModel.rating (Scenario.P (6 # 2)) <= inject_Z 4)%Q.
Proof.
  assert (S2 : step Scenario.db1 (Created Scenario.review2) Scenario.db2).
  { apply (step_create _ 101 (schemas.mk 7 None 2) Scenario.bob).
    vm_compute. reflexivity. }
  apply (rating_within_the_grades _ _ _ 2 4 S2);
    [discriminate | | left; reflexivity | reflexivity].
  intros g Hg. vm_compute in Hg. destruct Hg as [<- | [<- | []]]; lia.
Defined.

(** * Further properties of the payment call *)

(** X10. A failure of the gateway is passed on as it is: the call raises
    the very exception [Payment.create] raised, after one request and one
    draw of a key and with the client library configured; it does not try
    again. *)
Theorem gateway_failure_is_passed_on RETURN_URL SECRET_KEY SHOP_ID
    order_id amount user_email description w e :
  not_ SHOP_ID = false -> not_ SECRET_KEY = false ->
  gateway w (posted w)
    (payments.payload RETURN_URL order_id amount user_email description)
    (uuid.to_str (uuid.UUID_v4 (os_urandom w (drawn w)))) = Raise e ->
  exists w',
    payments.create_yookassa_payment RETURN_URL SECRET_KEY SHOP_ID
      order_id amount user_email description w = (Raise e, w')
    /\ posted w' = posted w ++
         [(payments.payload RETURN_URL order_id amount user_email description,
           uuid.to_str (uuid.UUID_v4 (os_urandom w (drawn w))))]
    /\ drawn w' = S (drawn w)
    /\ Configuration_account_id w' = SHOP_ID
    /\ Configuration_secret_key w' = SECRET_KEY.
Proof.
  intros Hshop Hsecret Hgateway.
  rewrite run_create_yookassa_payment, Hshop, Hsecret. cbn [orb]. cbv zeta.
  rewrite Hgateway. eexists. split; [reflexivity|]. cbn. repeat split.
Qed.

Lemma gateway_failure_is_passed_on_witness :
  exists w',
    Checkout.pay Checkout.SHOP_ID Checkout.SECRET_KEY (u "Order 42") Outage.world
    = (Raise (ApiError "gateway timeout"), w')
    /\ length (posted w') = 1%nat.
Proof.
  destruct (gateway_failure_is_passed_on Checkout.RETURN_URL Checkout.SECRET_KEY
              Checkout.SHOP_ID 42 Checkout.amount (u "a@b.com") (u "Order 42")
              Outage.world (ApiError "gateway timeout") eq_refl eq_refl eq_refl)
    as (w' & Hrun & Hposted & _).
  exists w'. split; [exact Hrun|]. rewrite Hposted. reflexivity.
Defined.

Lemma result_lookups (id status : str) (confirmation_url : Any) :
  let result := dict [("id", Str id); ("status", Str status);
                      ("confirmation_url", confirmation_url)]%string in
  at_path [key "id"] result = Some (Str id)
  /\ at_path [key "status"] result = Some (Str status)
  /\ at_path [key "confirmation_url"] result = Some confirmation_url.
Proof. repeat split; vm_compute; reflexivity. Qed.

(** X11. What a call returns is what the gateway reported: the id and the
    status of the payment it created, and the confirmation URL when the
    payment has a confirmation with one; [None] stands in its place
    exactly when the confirmation, or its URL, is missing. *)
Theorem payment_result_is_the_gateways RETURN_URL SECRET_KEY SHOP_ID
    order_id amount user_email description w payment :
  not_ SHOP_ID = false -> not_ SECRET_KEY = false ->
  gateway w (posted w)
    (payments.payload RETURN_URL order_id amount user_email description)
    (uuid.to_str (uuid.UUID_v4 (os_urandom w (drawn w)))) = Return payment ->
  exists result w',
    payments.create_yookassa_payment RETURN_URL SECRET_KEY SHOP_ID
      order_id amount user_email description w = (Return result, w')
    /\ at_path [key "id"] result = Some (Str (yookassa.id payment))
    /\ at_path [key "status"] result = Some (Str (yookassa.status payment))
    /\ (forall c url,
          yookassa.confirmation payment = Some c ->
          yookassa.confirmation_url c = Some url ->
          at_path [key "confirmation_url"] result = Some (Str url))
    /\ (at_path [key "confirmation_url"] result = Some NoneVal
        <-> yookassa.confirmation payment = None
            \/ exists c, yookassa.confirmation payment = Some c
                         /\ yookassa.confirmation_url c = None).
Proof.
  intros Hshop Hsecret Hgateway.
  rewrite run_create_yookassa_payment, Hshop, Hsecret. cbn [orb]. cbv zeta.
  rewrite Hgateway. eexists. eexists. split; [reflexivity|].
  destruct (result_lookups (yookassa.id payment) (yookassa.status payment)
              (of_optional (c ← yookassa.confirmation payment;
                            yookassa.confirmation_url c)))
    as (Hid & Hstatus & Hurl).
  split; [exact Hid|]. split; [exact Hstatus|]. rewrite Hurl. split.
  - intros c url -> Hc. cbn. now rewrite Hc.
  - destruct (yookassa.confirmation payment) as [c|]; cbn.
    + destruct (yookassa.confirmation_url c) as [url|] eqn:Hc; cbn.
      * split; [discriminate|]. intros [H | (c' & H & H')]; [discriminate|].
        injection H as <-. congruence.
      * split; [|reflexivity]. intros _. right. exists c. now split.
    + split; [|reflexivity]. intros _. now left.
Qed.

Lemma payment_result_is_the_gateways_witness :
  exists result w',
    Checkout.pay Checkout.SHOP_ID Checkout.SECRET_KEY (u "Order 42") Outage.quiet
    = (Return result, w')
    /\ at_path [key "confirmation_url"] result = Some NoneVal.
Proof.
  destruct (payment_result_is_the_gateways Checkout.RETURN_URL Checkout.SECRET_KEY
              Checkout.SHOP_ID 42 Checkout.amount (u "a@b.com") (u "Order 42")
              Outage.quiet Outage.bare eq_refl eq_refl eq_refl)
    as (result & w' & Hrun & _ & _ & _ & Hnone).
  exists result, w'. split; [exact Hrun|]. apply Hnone. now left.
Defined.

(** ** The text of equal amounts *)

Lemma ltb_scale (m a b : N) : (0 < m)%N -> (m * a <? m * b)%N = (a <? b)%N.
Proof.
  intros Hm. destruct (N.ltb_spec a b) as [H|H].
  - apply N.ltb_lt. now apply N.mul_lt_mono_pos_l.
  - apply N.ltb_ge. now apply N.mul_le_mono_l.
Qed.

(** Padding the coefficient with zeros against a lower exponent does not
    change the hundredths. *)
Lemma rescale2_shift (s : bool) (c : N) (e j : Z) :
  0 <= j ->
  decimal.rescale2 (decimal.mk s (c * 10 ^ Z.to_N j) e)
  = decimal.rescale2 (decimal.mk s c (e + j)).
Proof.
  intros Hj. unfold decimal.rescale2.
  cbn [decimal.coefficient decimal.exponent].
  assert (Hten : forall n, (10 ^ n <> 0)%N) by (intros n; apply N.pow_nonzero; discriminate).
  destruct (Z.leb_spec (-2) e) as [He|He]; destruct (Z.leb_spec (-2) (e + j)) as [Hej|Hej];
    try lia.
  - replace (Z.to_N (e + j + 2)) with (Z.to_N j + Z.to_N (e + 2))%N by lia.
    rewrite N.pow_add_r. symmetry. apply N.mul_assoc.
  - set (k := (10 ^ Z.to_N (- 2 - e))%N).
    replace (Z.to_N j) with (Z.to_N (e + j + 2) + Z.to_N (- 2 - e))%N by lia.
    rewrite N.pow_add_r, N.mul_assoc. fold k.
    rewrite N.div_mul by apply Hten. rewrite N.Div0.mod_mul.
    assert (0 < k)%N by (apply N.neq_0_lt_0, Hten).
    destruct (N.ltb_spec (2 * 0) k); [reflexivity | lia].
  - set (m := (10 ^ Z.to_N j)%N).
    set (k := (10 ^ Z.to_N (- 2 - (e + j)))%N).
    replace (Z.to_N (- 2 - e)) with (Z.to_N j + Z.to_N (- 2 - (e + j)))%N by lia.
    rewrite N.pow_add_r. fold m k.
    assert (Hm : (0 < m)%N) by (apply N.neq_0_lt_0, Hten).
    rewrite (N.mul_comm c m).
    rewrite N.Div0.div_mul_cancel_l by (apply Hten).
    rewrite N.Div0.mul_mod_distr_l.
    replace (2 * (m * (c mod k)))%N with (m * (2 * (c mod k)))%N by lia.
    now rewrite !ltb_scale.
Qed.

Lemma rescale2_same_amount (d1 d2 : decimal.Decimal) :
  same_amount d1 d2 -> decimal.rescale2 d1 = decimal.rescale2 d2.
Proof.
  destruct d1 as [s1 c1 e1], d2 as [s2 c2 e2]. unfold same_amount.
  cbn [decimal.sign decimal.coefficient decimal.exponent].
  intros [-> Hvalue].
  destruct (Z.le_ge_cases e1 e2) as [Hle|Hle].
  - rewrite Z.min_l in Hvalue by exact Hle.
    rewrite Z.sub_diag, N.pow_0_r, N.mul_1_r in Hvalue. subst c1.
    rewrite rescale2_shift by lia. do 2 f_equal. lia.
  - rewrite Z.min_r in Hvalue by exact Hle.
    rewrite Z.sub_diag, N.pow_0_r, N.mul_1_r in Hvalue. subst c2.
    rewrite rescale2_shift by lia. do 2 f_equal. lia.
Qed.

(** X12. The text of an amount depends on the number only, not on how the
    [Decimal] writes it: two amounts of the same sign that denote the same
    number, such as 100, 100.0 and 100.00, are formatted alike, so the
    payloads built for them carry the same [amount.value]. *)
Theorem equal_amounts_are_formatted_alike (d1 d2 : decimal.Decimal) :
  same_amount d1 d2 ->
  decimal.format_2f d1 = decimal.format_2f d2
  /\ forall RETURN_URL order_id user_email description,
       at_path [key "amount"; key "value"]
         (payments.payload RETURN_URL order_id d1 user_email description)
       = at_path [key "amount"; key "value"]
           (payments.payload RETURN_URL order_id d2 user_email description).
Proof.
  intros Hsame.
  assert (Htext : decimal.format_2f d1 = decimal.format_2f d2).
  { unfold decimal.format_2f. rewrite (rescale2_same_amount d1 d2 Hsame).
    destruct Hsame as [-> _]. reflexivity. }
  split; [exact Htext|].
  intros RETURN_URL order_id user_email description.
  destruct (payload_lookups RETURN_URL order_id d1 user_email description) as (-> & _).
  destruct (payload_lookups RETURN_URL order_id d2 user_email description) as (-> & _).
  now rewrite Htext.
Qed.

Lemma equal_amounts_are_formatted_alike_witness :
  decimal.format_2f (decimal.mk false 100 0) = u "100.00"
  /\ decimal.format_2f (decimal.mk false 1000000 (-4)) = u "100.00".
Proof.
  assert (H1 : same_amount (decimal.mk false 100 0) Checkout.amount)
    by (split; vm_compute; reflexivity).
  assert (H2 : same_amount (decimal.mk false 1000000 (-4)) Checkout.amount)
    by (split; vm_compute; reflexivity).
  destruct (equal_amounts_are_formatted_alike _ _ H1) as [E1 _].
  destruct (equal_amounts_are_formatted_alike _ _ H2) as [E2 _].
  rewrite E1, E2. split; vm_compute; reflexivity.
Defined.

(** * Further properties: the order of rows *)

Lemma Permutation_filter_rows {A} (f : A -> bool) (l1 l2 : list A) :
  Permutation l1 l2 -> Permutation (List.filter f l1) (List.filter f l2).
Proof.
  induction 1 as [|x l1 l2 _ IH|x y l|l1 l2 l3 _ IH1 _ IH2]; cbn [List.filter].
  - constructor.
  - destruct (f x); [now constructor | exact IH].
  - destruct (f x), (f y); try reflexivity. constructor.
  - now transitivity (List.filter f l2).
Qed.

Lemma avg_Permutation (gs1 gs2 : list Z) : Permutation gs1 gs2 -> avg gs1 = avg gs2.
Proof.
  intros H.
  assert (Hsum : sum_grades gs1 = sum_grades gs2).
  { induction H as [|x l1 l2 _ IH|x y l|l1 l2 l3 _ IH1 _ IH2]; cbn; try lia.
    unfold sum_grades in *. lia. }
  pose proof (Permutation_length H) as Hlen.
  destruct gs1 as [|g1 gs1], gs2 as [|g2 gs2]; try discriminate Hlen; [reflexivity|].
  unfold avg. now rewrite Hsum, Hlen.
Qed.

Lemma aggregate_Permutation pid (rows1 rows2 : list ReviewModel.Review) :
  Permutation rows1 rows2 ->
  avg (map ReviewModel.grade (List.filter (active_of_product pid) rows1))
  = avg (map ReviewModel.grade (List.filter (active_of_product pid) rows2)).
Proof.
  intros H. apply avg_Permutation, Permutation_map.
  now apply Permutation_filter_rows.
Qed.

Lemma unique_filter_first (f : ReviewModel.Review -> bool) (l : list ReviewModel.Review) r :
  List.NoDup (map ReviewModel.id l) ->
  (forall x, f x = true -> ReviewModel.id x = ReviewModel.id r) ->
  first (List.filter f l) = Some r -> List.filter f l = [r].
Proof.
  intros Hnd Hid Hfirst.
  assert (Hnd' : List.NoDup (List.filter f l))
    by (apply List.NoDup_filter; eapply NoDup_map_inv; exact Hnd).
  destruct (List.filter f l) as [|a tl] eqn:E; [discriminate|].
  injection Hfirst as ->. destruct tl as [|b tl]; [reflexivity|]. exfalso.
  assert (Hr : In r (List.filter f l)) by (rewrite E; now left).
  assert (Hb : In b (List.filter f l)) by (rewrite E; right; now left).
  apply filter_In in Hr as [Hr _]. apply filter_In in Hb as [Hb Hfb].
  assert (b = r) as -> by (apply (unique_id_In l); auto).
  apply List.NoDup_cons_iff in Hnd' as [Hnotin _]. apply Hnotin. now left.
Qed.

(** X13. The order in which the rows of the reviews are stored plays no
    part.  If two databases hold the same reviews in different orders, with
    distinct ids, and agree otherwise, then a [create_review] or
    [delete_review] that succeeds on one succeeds on the other with the
    same effect: it writes the same ratings and leaves the same reviews. *)
Theorem row_order_is_immaterial db1 db2 e db1' :
  Permutation (reviews db1) (reviews db2) ->
  products db1 = products db2 ->
  reviews_id_seq db1 = reviews_id_seq db2 ->
  unique_ids db1 ->
  step db1 e db1' ->
  exists db2',
    step db2 e db2'
    /\ products db2' = products db1'
    /\ Permutation (reviews db1') (reviews db2').
Proof.
  intros Hperm Hproducts Hseq Hnd Hstep.
  destruct (step_database _ _ _ Hstep) as (_ & _ & He).
  destruct Hstep as [clock comment user r db1' H | clock review_id user review msg db1' H Hfound].
  - destruct He as (_ & _ & Hfresh).
    apply create_review_success in H as (Hr & (p & Hp & Hpid & Hpact) & Hdb1).
    destruct (create_review_succeeds clock comment user db2 p) as (r2 & db2' & Hrun2);
      [now rewrite <- Hproducts | exact Hpid | exact Hpact | |].
    { intros r0 Hr0 Heq. apply (Hfresh r0).
      - eapply Permutation_in; [symmetry; exact Hperm | exact Hr0].
      - rewrite Heq, Hr, Hseq. reflexivity. }
    pose proof Hrun2 as Hrun2'.
    apply create_review_success in Hrun2' as (Hr2 & _ & Hdb2).
    assert (r2 = r) as -> by (rewrite Hr, Hr2, Hseq; reflexivity).
    exists db2'. split; [eapply step_create; exact Hrun2|].
    rewrite Hdb1, Hdb2. cbn [products reviews]. split.
    + rewrite Hproducts. unfold active_grades, active_reviews. cbn [reviews].
      rewrite (aggregate_Permutation _ (reviews db2 ++ [r]) (reviews db1 ++ [r]));
        [reflexivity|].
      apply Permutation_app_tail. now symmetry.
    + now apply Permutation_app_tail.
  - destruct He as (_ & Hin & Hact).
    pose proof H as H'.
    apply delete_review_success in H' as (review' & Hfound' & Hauth & (p & Hp & Hpid) & Hdb1).
    assert (review' = review) as -> by congruence.
    destruct (find_active_review_Some _ _ _ Hfound) as (_ & Hrid & _).
    assert (Hfound2 : find_active_review review_id db2 = Some review).
    { unfold find_active_review in *.
      set (f := fun r => (ReviewModel.id r =? review_id) && ReviewModel.is_active r) in *.
      assert (Hone : List.filter f (reviews db1) = [review]).
      { apply unique_filter_first; [exact Hnd | | exact Hfound].
        intros x Hx. apply andb_true_iff in Hx as [Hx _]. apply Z.eqb_eq in Hx. lia. }
      pose proof (Permutation_filter_rows f _ _ Hperm) as Hf. rewrite Hone in Hf.
      apply Permutation_length_1_inv in Hf. now rewrite Hf. }
    destruct (delete_review_succeeds clock review_id user db2 review Hfound2 Hauth)
      as (db2' & Hrun2); [exists p; now rewrite <- Hproducts|].
    pose proof Hrun2 as Hrun2'.
    apply delete_review_success in Hrun2' as (review2 & Hfound2' & _ & _ & Hdb2).
    assert (review2 = review) as -> by congruence.
    assert (msg = dict [("Message"%string, Str (u "Review deleted"))]) as ->.
    { destruct (delete_review_succeeds clock review_id user db1 review Hfound Hauth)
        as (db & Hrun1); [eauto|]. congruence. }
    exists db2'. split; [eapply step_delete; eassumption|].
    cbv zeta in Hdb1, Hdb2. rewrite Hdb1, Hdb2. cbn [products reviews]. split.
    + rewrite Hproducts. unfold active_grades, active_reviews. cbn [reviews].
      rewrite (aggregate_Permutation _ (map (soft_delete review_id) (reviews db2))
                 (map (soft_delete review_id) (reviews db1))); [reflexivity|].
      apply Permutation_map. now symmetry.
    + now apply Permutation_map.
Qed.

Lemma row_order_is_immaterial_witness :
  exists db2',
    step (mkDatabase [Scenario.review2; Scenario.review1]
            [Scenario.P (6 # 2); Scenario.hidden] 3)
      (SoftDeleted Scenario.review2) db2'
    /\ products db2' = products Scenario.db3.
Proof.
  assert (S3 : step Scenario.db2 (SoftDeleted Scenario.review2) Scenario.db3).
  { apply (step_delete _ 102 2 Scenario.bob _ Scenario.deleted_message);
      vm_compute; reflexivity. }
  assert (Hnd : unique_ids Scenario.db2).
  { unfold unique_ids. cbn. repeat constructor; cbn; intuition discriminate. }
  destruct (row_order_is_immaterial Scenario.db2
              (mkDatabase [Scenario.review2; Scenario.review1]
                 [Scenario.P (6 # 2); Scenario.hidden] 3)
              (SoftDeleted Scenario.review2) Scenario.db3
              (perm_swap Scenario.review2 Scenario.review1 []) eq_refl eq_refl Hnd S3)
    as (db2' & Hstep & Hproducts & _).
  exists db2'. split; [exact Hstep | exact Hproducts].
Defined.

(** * Further properties: calls in a row *)

Lemma NoDup_map_equiv {A B C} (f : A -> B) (g : A -> C) (l : list A) :
  (forall a b, f a = f b <-> g a = g b) ->
  List.NoDup (map f l) <-> List.NoDup (map g l).
Proof.
  intros Hfg. induction l as [|a l IH]; cbn [map]; [split; constructor|].
  rewrite !List.NoDup_cons_iff, IH.
  assert (Hin : In (f a) (map f l) <-> In (g a) (map g l)).
  { rewrite !in_map_iff. split; intros (b & Hb & Hl); exists b; (split; [|exact Hl]);
      now apply Hfg. }
  now rewrite Hin.
Qed.

(** X14. Calls add up.  With the credentials set, paying a list of orders
    one after the other sends one request for each, in that order, behind
    those sent before; the request for an order carries the payload of that
    order and the key of the next draw, whatever the gateway answered in
    between.  The keys sent are all different exactly when the draws are,
    on the bits [uuid4] keeps. *)
Theorem calls_post_in_order RETURN_URL SECRET_KEY SHOP_ID (orders : list Order) w :
  not_ SHOP_ID = false -> not_ SECRET_KEY = false ->
  let w' := pay_all RETURN_URL SECRET_KEY SHOP_ID orders w in
  let draws := seq (drawn w) (length orders) in
  posted w'
  = posted w ++ combine (map (payload_of RETURN_URL) orders)
                  (map (key_of (os_urandom w)) draws)
  /\ drawn w' = (drawn w + length orders)%nat
  /\ (List.NoDup (map (key_of (os_urandom w)) draws)
      <-> List.NoDup (map (fun n => uuid.free_bits (os_urandom w n)) draws)).
Proof.
  intros Hshop Hsecret. cbv zeta. split; [|split].
  - revert w. induction orders as [|o rest IH]; intros w.
    + cbn. now rewrite app_nil_r.
    + cbn [pay_all length seq map combine].
      destruct (posted_after_call RETURN_URL SECRET_KEY SHOP_ID
                  (o_order_id o) (o_amount o) (o_user_email o) (o_description o)
                  w Hshop Hsecret) as (Hp & Hu & Hd & _).
      cbv zeta in Hp, Hu, Hd. rewrite IH, Hp, Hu, Hd, <- app_assoc. reflexivity.
  - revert w. induction orders as [|o rest IH]; intros w.
    + cbn. lia.
    + cbn [pay_all length].
      destruct (posted_after_call RETURN_URL SECRET_KEY SHOP_ID
                  (o_order_id o) (o_amount o) (o_user_email o) (o_description o)
                  w Hshop Hsecret) as (_ & _ & Hd & _).
      cbv zeta in Hd. rewrite IH, Hd. lia.
  - apply NoDup_map_equiv. intros a b. apply uuid_facts.uuid4_key_eq_iff.
Qed.

Lemma calls_post_in_order_witness :
  idempotence_keys
    (pay_all Checkout.RETURN_URL Checkout.SECRET_KEY Checkout.SHOP_ID
       [mkOrder 1 Checkout.amount (u "a@b.com") (u "Order 1");
        mkOrder 2 Checkout.amount (u "a@b.com") (u "Order 2");
        mkOrder 3 Checkout.amount (u "c@d.com") (u "Order 3")]
       (Checkout.world N.of_nat))
  = [Checkout.zero_key;
     u "00000000-0000-4000-8000-000000000001";
     u "00000000-0000-4000-8000-000000000002"].
Proof.
  destruct (calls_post_in_order Checkout.RETURN_URL Checkout.SECRET_KEY Checkout.SHOP_ID
              [mkOrder 1 Checkout.amount (u "a@b.com") (u "Order 1");
               mkOrder 2 Checkout.amount (u "a@b.com") (u "Order 2");
               mkOrder 3 Checkout.amount (u "c@d.com") (u "Order 3")]
              (Checkout.world N.of_nat) eq_refl eq_refl) as (Hposted & _).
  unfold idempotence_keys. rewrite Hposted. vm_compute. reflexivity.
Defined.

(** * Further properties: the shape of a key *)

Lemma hex_digits_app (m : nat) : forall (n : nat) (x : N),
  uuid.hex_digits (n + m) x
  = uuid.hex_digits n (x / 16 ^ N.of_nat m) ++ uuid.hex_digits m x.
Proof.
  induction m as [|m IH]; intros n x.
  - rewrite Nat.add_0_r. cbn [uuid.hex_digits N.of_nat].
    now rewrite N.pow_0_r, N.div_1_r, app_nil_r.
  - rewrite Nat.add_succ_r. cbn [uuid.hex_digits]. rewrite IH, <- app_assoc.
    rewrite Nat2N.inj_succ, N.pow_succ_r', N.Div0.div_div. reflexivity.
Qed.

Lemma hex_digit_at (n m : nat) (x : N) :
  uuid.hex_digits (n + S m) x !! n
  = Some (uuid.hexdigit ((x / 16 ^ N.of_nat m) mod 16)).
Proof.
  rewrite hex_digits_app. unfold str.
  rewrite lookup_app_r by (rewrite uuid_facts.hex_digits_length; lia).
  rewrite uuid_facts.hex_digits_length, Nat.sub_diag.
  change (S m) with (1 + m)%nat. rewrite hex_digits_app. reflexivity.
Qed.

Lemma hexdigit_is_hex (d : N) : (d < 16)%N -> is_hex (uuid.hexdigit d) = true.
Proof.
  intros Hd. unfold is_hex, is_digit, uuid.hexdigit.
  destruct (N.ltb_spec d 10).
  - apply orb_true_iff. left. apply andb_true_iff. split; apply N.leb_le; lia.
  - apply orb_true_iff. right. apply andb_true_iff. split; apply N.leb_le; lia.
Qed.

Lemma hex_digits_are_hex (n : nat) : forall x,
  Forall (fun c => is_hex c = true) (uuid.hex_digits n x).
Proof.
  induction n as [|n IH]; intros x; cbn [uuid.hex_digits]; [constructor|].
  apply Forall_app. split; [apply IH|].
  repeat constructor. apply hexdigit_is_hex. now apply N.mod_lt.
Qed.

Lemma nibble_bits (x k i : N) :
  N.testbit ((x / 2 ^ k) mod 2 ^ 4) i
  = if (i <? 4)%N then N.testbit x (i + k) else false.
Proof.
  destruct (N.ltb_spec i 4).
  - rewrite N.mod_pow2_bits_low by assumption. apply N.div_pow2_bits.
  - now apply N.mod_pow2_bits_high.
Qed.

Lemma UUID_v4_bit (b i : N) :
  N.testbit (uuid.UUID_v4 b) i
  = N.testbit (b mod 2 ^ 128) i && negb (N.testbit uuid.forced_mask i)
    || N.testbit uuid.forced_bits i.
Proof.
  rewrite uuid_facts.UUID_v4_normal_form, N.lor_spec. unfold uuid.free_bits.
  now rewrite N.ldiff_spec.
Qed.

Lemma version_nibble (b : N) : ((uuid.UUID_v4 b / 16 ^ 19) mod 16 = 4)%N.
Proof.
  change (16 ^ 19)%N with (2 ^ 76)%N. change 16%N with (2 ^ 4)%N.
  apply N.bits_inj. intros i. rewrite nibble_bits.
  destruct (N.ltb_spec i 4) as [Hi|Hi].
  - rewrite UUID_v4_bit.
    assert (Hcases : i = 0%N \/ i = 1%N \/ i = 2%N \/ i = 3%N) by lia.
    destruct Hcases as [-> | [-> | [-> | ->]]];
      match goal with
      | |- context [N.testbit uuid.forced_mask ?k] =>
          change (N.testbit uuid.forced_mask k) with true
      end; now rewrite andb_false_r.
  - symmetry. apply N.bits_above_log2. change (N.log2 4) with 2%N. lia.
Qed.

Lemma variant_nibble (b : N) :
  (8 <= (uuid.UUID_v4 b / 16 ^ 15) mod 16 < 12)%N.
Proof.
  set (n := ((uuid.UUID_v4 b / 16 ^ 15) mod 16)%N).
  assert (Hdiv : (n / 2 ^ 2 = 2)%N).
  { apply N.bits_inj. intros i. rewrite N.div_pow2_bits. subst n.
    change (16 ^ 15)%N with (2 ^ 60)%N. change 16%N with (2 ^ 4)%N.
    rewrite nibble_bits.
    destruct (N.ltb_spec (i + 2) 4) as [Hi|Hi].
    - rewrite UUID_v4_bit.
      assert (Hcases : i = 0%N \/ i = 1%N) by lia.
      destruct Hcases as [-> | ->].
      + change (N.testbit uuid.forced_mask (0 + 2 + 60)) with true.
        now rewrite andb_false_r.
      + change (N.testbit uuid.forced_bits (1 + 2 + 60)) with true.
        now rewrite orb_true_r.
    - symmetry. apply N.bits_above_log2. change (N.log2 2) with 1%N. lia. }
  assert (Hn : (n < 16)%N) by (subst n; now apply N.mod_lt).
  pose proof (N.Div0.div_mod n (2 ^ 2)) as Hsplit.
  pose proof (N.mod_lt n (2 ^ 2)) as Hrem.
  rewrite Hdiv in Hsplit. clearbody n.
  change (2 ^ 2)%N with 4%N in *.
  revert Hsplit Hrem. generalize (n mod 4)%N. intros m Hsplit Hrem. lia.
Qed.

Lemma to_str_is_uuid4_text (b : N) : uuid4_text (uuid.to_str (uuid.UUID_v4 b)).
Proof.
  unfold uuid.to_str. set (x := uuid.UUID_v4 b).
  pose proof (uuid_facts.hex_digits_length 32 x) as Hlen.
  pose proof (hex_digits_are_hex 32 x) as Hall.
  pose proof (hex_digit_at 12 19 x) as H12.
  pose proof (hex_digit_at 16 15 x) as H16.
  change (12 + 20)%nat with 32%nat in H12. change (16 + 16)%nat with 32%nat in H16.
  change (N.of_nat 19) with 19%N in H12. change (N.of_nat 15) with 15%N in H16.
  subst x. rewrite version_nibble in H12.
  pose proof (variant_nibble b) as Hvariant.
  revert H16 Hvariant. generalize ((uuid.UUID_v4 b / 16 ^ 15) mod 16)%N. intros n H16 Hn.
  revert Hlen Hall H12 H16. generalize (uuid.hex_digits 32 (uuid.UUID_v4 b)).
  intros hex Hlen Hall H12 H16.
  do 33 (destruct hex as [|? hex]; try discriminate Hlen).
  cbn in H12, H16. injection H12 as ->. injection H16 as ->.
  eexists [_; _; _; _; _; _; _; _], [_; _; _; _], [_; _; _; _], [_; _; _; _],
    [_; _; _; _; _; _; _; _; _; _; _; _].
  split; [reflexivity|]. do 5 (split; [reflexivity|]).
  split; [exact Hall|]. split; [reflexivity|].
  eexists. split; [reflexivity|].
  assert (Hcases : n = 8%N \/ n = 9%N \/ n = 10%N \/ n = 11%N) by lia.
  destruct Hcases as [-> | [-> | [-> | ->]]]; cbn; auto.
Qed.

(** X15. The key a call sends is the canonical text of a version 4 UUID:
    36 characters, lowercase hexadecimal digits in groups of 8, 4, 4, 4
    and 12 with hyphens between, the version digit 4 and a variant digit
    8, 9, a or b, whatever the random source delivered. *)
Theorem idempotence_key_is_uuid4_text RETURN_URL SECRET_KEY SHOP_ID
    order_id amount user_email description w :
  not_ SHOP_ID = false -> not_ SECRET_KEY = false ->
  exists payload idempotence_key,
    posted (snd (payments.create_yookassa_payment RETURN_URL SECRET_KEY SHOP_ID
                   order_id amount user_email description w))
    = posted w ++ [(payload, idempotence_key)]
    /\ uuid4_text idempotence_key
    /\ length idempotence_key = 36%nat.
Proof.
  intros Hshop Hsecret.
  destruct (posted_after_call RETURN_URL SECRET_KEY SHOP_ID
              order_id amount user_email description w Hshop Hsecret) as (Hp & _).
  eexists. eexists. split; [exact Hp|].
  split; [apply to_str_is_uuid4_text | apply uuid_facts.to_str_length].
Qed.

Lemma idempotence_key_is_uuid4_text_witness :
  exists payload idempotence_key,
    posted (snd (Checkout.pay Checkout.SHOP_ID Checkout.SECRET_KEY (u "Order 42")
                   (Checkout.world (fun _ => (2 ^ 128 - 1)%N))))
    = [(payload, idempotence_key)]
    /\ uuid4_text idempotence_key.
Proof.
  destruct (idempotence_key_is_uuid4_text Checkout.RETURN_URL Checkout.SECRET_KEY
              Checkout.SHOP_ID 42 Checkout.amount (u "a@b.com") (u "Order 42")
              (Checkout.world (fun _ => (2 ^ 128 - 1)%N)) eq_refl eq_refl)
    as (payload & k & Hp & Htext & _).
  exists payload, k. split; [exact Hp | exact Htext].
Defined.

(** * Further properties: what is not checked *)

Lemma confirmation_lookups RETURN_URL order_id amount user_email description :
  let payload := payments.payload RETURN_URL order_id amount user_email description in
  at_path [key "confirmation"; key "type"] payload = Some (Str (u "redirect"))
  /\ at_path [key "confirmation"; key "return_url"] payload
     = Some (of_optional RETURN_URL).
Proof.
  unfold payments.payload.
  generalize (decimal.format_2f amount) (take 128 description) (of_optional RETURN_URL).
  intros value short url. split; vm_compute; reflexivity.
Qed.

(** X16. The return URL is not among the settings the call insists on.
    With shop id and secret key set, the call goes ahead whatever the
    return URL is: the request asks for a redirect confirmation and carries
    the configured URL, and [None] in its place when none is configured. *)
Theorem return_url_is_not_required RETURN_URL SECRET_KEY SHOP_ID
    order_id amount user_email description w :
  not_ SHOP_ID = false -> not_ SECRET_KEY = false ->
  exists payload idempotence_key,
    posted (snd (payments.create_yookassa_payment RETURN_URL SECRET_KEY SHOP_ID
                   order_id amount user_email description w))
    = posted w ++ [(payload, idempotence_key)]
    /\ at_path [key "confirmation"; key "type"] payload = Some (Str (u "redirect"))
    /\ (forall url, RETURN_URL = Some url ->
          at_path [key "confirmation"; key "return_url"] payload = Some (Str url))
    /\ (RETURN_URL = None ->
        at_path [key "confirmation"; key "return_url"] payload = Some NoneVal).
Proof.
  intros Hshop Hsecret.
  destruct (posted_after_call RETURN_URL SECRET_KEY SHOP_ID
              order_id amount user_email description w Hshop Hsecret) as (Hp & _).
  destruct (confirmation_lookups RETURN_URL order_id amount user_email description)
    as (Htype & Hurl).
  eexists. eexists. split; [exact Hp|]. split; [exact Htype|].
  rewrite Hurl. split; [intros url -> | intros ->]; reflexivity.
Qed.

Lemma return_url_is_not_required_witness :
  exists payload idempotence_key,
    posted (snd (payments.create_yookassa_payment None Checkout.SECRET_KEY
                   Checkout.SHOP_ID 42 Checkout.amount (u "a@b.com") (u "Order 42")
                   (Checkout.world N.of_nat)))
    = [(payload, idempotence_key)]
    /\ at_path [key "confirmation"; key "return_url"] payload = Some NoneVal.
Proof.
  destruct (return_url_is_not_required None Checkout.SECRET_KEY Checkout.SHOP_ID
              42 Checkout.amount (u "a@b.com") (u "Order 42")
              (Checkout.world N.of_nat) eq_refl eq_refl)
    as (payload & k & Hp & _ & _ & Hnone).
  exists payload, k. split; [exact Hp | exact (Hnone eq_refl)].
Defined.

Lemma create_review_next clock comment user db r db' :
  sequence_ahead db ->
  run_request clock (routers.create_review comment user) db = (Return r, db') ->
  ReviewModel.id r = reviews_id_seq db
  /\ sequence_ahead db'
  /\ exists p, In p (products db') /\ ProductModel.id p = schemas.product_id comment
               /\ ProductModel.is_active p = true.
Proof.
  intros Hahead Hrun.
  apply create_review_success in Hrun as (Hr & (p & Hp & Hpid & Hpact) & ->).
  split; [now rewrite Hr|]. split.
  - intros r0 Hr0. cbn [reviews reviews_id_seq] in *.
    apply in_app_or in Hr0 as [Hr0 | [<- | []]].
    + specialize (Hahead r0 Hr0). lia.
    + rewrite Hr. cbn. lia.
  - cbn [products].
    set (q := or_zero (avg _)).
    exists (rate (schemas.product_id comment) q p). split; [now apply in_map|].
    destruct (rate_keeps (schemas.product_id comment) q p) as (-> & -> & _). now split.
Qed.



(** X18. Nothing limits a caller to one review of a product: while the id
    sequence is ahead, the same request sent again after it succeeded
    succeeds again, under another id, and both reviews are then among the
    active reviews of the product and in its rating. *)
Theorem create_review_twice clock comment user db r db' clock' :
  sequence_ahead db ->
  run_request clock (routers.create_review comment user) db = (Return r, db') ->
  let pid := schemas.product_id comment in
  exists r2 db'',
    run_request clock' (routers.create_review comment user) db' = (Return r2, db'')
    /\ ReviewModel.id r2 <> ReviewModel.id r
    /\ ReviewModel.user_id r2 = ReviewModel.user_id r
    /\ ReviewModel.product_id r2 = ReviewModel.product_id r
    /\ active_reviews pid db'' = active_reviews pid db ++ [r; r2]
    /\ forall p, In p (products db'') -> ProductModel.id p = pid ->
         ProductModel.rating p
         = or_zero (avg (active_grades pid db
                         ++ [schemas.grade comment; schemas.grade comment])).
Proof.
  intros Hahead Hrun pid.
  destruct (create_review_next _ _ _ _ _ _ Hahead Hrun)
    as (Hid & Hahead' & (p & Hp & Hpid & Hpact)).
  destruct (create_review_succeeds clock' comment user db' p Hp Hpid Hpact)
    as (r2 & db'' & Hrun2).
  { intros r0 Hr0. specialize (Hahead' r0 Hr0). lia. }
  exists r2, db''. split; [exact Hrun2|].
  destruct (create_review_next _ _ _ _ _ _ Hahead' Hrun2) as (Hid2 & _ & _).
  assert (Hstep1 : step db (Created r) db') by (eapply step_create; exact Hrun).
  assert (Hstep2 : step db' (Created r2) db'') by (eapply step_create; exact Hrun2).
  destruct (step_rating _ _ _ Hstep1) as (_ & _ & Hact1).
  destruct (step_rating _ _ _ Hstep2) as (_ & Hrating2 & Hact2).
  pose proof Hrun as Hrun'. pose proof Hrun2 as Hrun2'.
  apply create_review_success in Hrun' as (Hr & _ & Hdb').
  apply create_review_success in Hrun2' as (Hr2 & _ & _).
  assert (Hsub1 : ReviewModel.product_id r = pid) by (rewrite Hr; reflexivity).
  assert (Hsub2 : ReviewModel.product_id r2 = pid) by (rewrite Hr2; reflexivity).
  cbn [subject] in Hact1, Hact2, Hrating2. rewrite Hsub1 in Hact1.
  rewrite Hsub2 in Hact2, Hrating2.
  assert (Hseq : reviews_id_seq db' = reviews_id_seq db + 1) by (rewrite Hdb'; reflexivity).
  split; [rewrite Hid, Hid2; lia|].
  split; [rewrite Hr, Hr2; reflexivity|].
  split; [congruence|].
  assert (Hact : active_reviews pid db'' = active_reviews pid db ++ [r; r2])
    by (rewrite Hact2, Hact1, <- app_assoc; reflexivity).
  split; [exact Hact|].
  intros p0 Hp0 Hid0. rewrite (Hrating2 p0 Hp0 Hid0).
  unfold active_grades at 1. rewrite Hact, map_app. cbn [map].
  rewrite Hr at 1. rewrite Hr2 at 1. reflexivity.
Qed.

Lemma create_review_twice_witness :
  exists r2 db'',
    run_request 8 (routers.create_review (schemas.mk 7 None 4) Scenario.alice) Scenario.db1
    = (Return r2, db'')
    /\ active_reviews 7 db'' = [Scenario.review1; r2].
Proof.
  assert (Hahead : sequence_ahead Scenario.db0) by (intros r []).
  assert (Hrun : run_request 100 (routers.create_review (schemas.mk 7 None 4) Scenario.alice)
                   Scenario.db0 = (Return Scenario.review1, Scenario.db1))
    by (vm_compute; reflexivity).
  destruct (create_review_twice _ _ _ _ _ _ 8 Hahead Hrun)
    as (r2 & db'' & Hrun2 & _ & _ & _ & Hact & _).
  exists r2, db''. split; [exact Hrun2 | exact Hact].
Defined.
